(** * Negation scope detection: the CRF feature-ablation script

    A shallow embedding of [crf_feature_ablation.py]: the sentence loader
    built on a pandas data frame, the per-token feature builder, the label
    extractor, the result writer and the scope metric, followed by the
    properties the specification states about them. *)

From Stdlib Require Import QArith Lqa.
From Stdlib Require Import Ascii DecimalString DecimalZ Sorted.
From Stdlib Require OrderedTypeEx.
From stdpp Require Import gmap strings list fin_maps.

Local Open Scope string_scope.

(** ** Python values *)

(** The values a cell of the table can hold once pandas has read it: text,
    an integer, a boolean, or the missing-value marker [nan].  Columns that
    pandas would read as floating point are outside this model. *)
Inductive value : Type :=
  | VStr (s : string)
  | VInt (z : Z)
  | VBool (b : bool)
  | VNaN.

#[global] Instance value_eq_dec : EqDecision value.
Proof. solve_decision. Defined.

Definition int_to_string (z : Z) : string :=
  NilZero.string_of_int (Z.to_int z).

(** [str(v)], as used by an f-string field. *)
Definition py_str (v : value) : string :=
  match v with
  | VStr s => s
  | VInt z => int_to_string z
  | VBool true => "True"
  | VBool false => "False"
  | VNaN => "nan"
  end.

(** Truthiness of a string: only the empty string is falsy. *)
Definition truthy (s : string) : bool :=
  match s with
  | EmptyString => false
  | String _ _ => true
  end.

(** ** Token records and sentences *)

(** The 16-tuple built by [read_and_format_data] for one row, in the order
    of the tuple. *)
Record TokenRecord : Type := mkToken {
  t_token : value;
  t_lemma : value;
  t_pos : value;
  t_cue : value;
  t_constituency_distance : value;
  t_same_clause : value;
  t_same_phrase : value;
  t_is_punct : value;
  t_sentence_position : value;
  t_is_negation_cue : value;
  t_token_distance : value;
  t_dependency_type : value;
  t_dependency_head : value;
  t_distance_to_root : value;
  t_distance_to_cue : value;
  t_label : value
}.

Abbreviation Sentence := (list TokenRecord).

(** ** Feature builder *)

(** A Python dict display: the pairs are stored from left to right, a later
    pair overriding an earlier one with the same key. *)
Definition dict_literal (items : list (string * value)) : gmap string value :=
  foldl (fun m kv => <[kv.1 := kv.2]> m) ∅ items.

(** The pairs of the [features] display of [extract_features]. *)
Definition feature_items (tok : TokenRecord) (prev_pos next_pos : value)
  : list (string * value) :=
  [ ("token", t_token tok);
    ("lemma", t_lemma tok);
    ("pos", t_pos tok);
    ("lexicalized_pos", VStr (py_str (t_lemma tok) ++ "_" ++ py_str (t_pos tok)));
    ("cue", t_cue tok);
    ("prev_pos", prev_pos);
    ("next_pos", next_pos);
    ("constituency_distance", t_constituency_distance tok);
    ("same_clause", t_same_clause tok);
    ("same_phrase", t_same_phrase tok);
    ("is_punct", t_is_punct tok);
    ("sentence_position", t_sentence_position tok);
    ("is_negation_cue", t_is_negation_cue tok);
    ("token_distance", t_token_distance tok);
    ("dependency_type", t_dependency_type tok);
    ("dependency_head", t_dependency_head tok);
    ("distance_to_root", t_distance_to_root tok);
    ("distance_to_cue", t_distance_to_cue tok) ].

(** [del features[name]]: a key that is not in the mapping raises
    [KeyError]. *)
Definition del_item (name : string) (features : gmap string value)
  : option (gmap string value) :=
  if bool_decide (is_Some (features !! name))
  then Some (delete name features)
  else None.

(** [if exclude_feature and exclude_feature in features:
        del features[exclude_feature]] *)
Definition exclude (exclude_feature : option string)
    (features : gmap string value) : option (gmap string value) :=
  match exclude_feature with
  | Some name =>
      if truthy name && bool_decide (is_Some (features !! name))
      then del_item name features
      else Some features
  | None => Some features
  end.

(** The body of the loop of [extract_features] at index [i].  It fails when
    the sentence is indexed out of range ([IndexError]) or a key that is
    not in the mapping is deleted ([KeyError]). *)
Definition token_features (sentence : Sentence) (exclude_feature : option string)
    (i : nat) : option (gmap string value) :=
  tok ← sentence !! i;
  prev_pos ← (if bool_decide (0 < Z.of_nat i)%Z
              then t_pos <$> sentence !! Z.to_nat (Z.of_nat i - 1)
              else Some (VStr "START"));
  next_pos ← (if bool_decide (Z.of_nat i < Z.of_nat (length sentence) - 1)%Z
              then t_pos <$> sentence !! Z.to_nat (Z.of_nat i + 1)
              else Some (VStr "END"));
  exclude exclude_feature (dict_literal (feature_items tok prev_pos next_pos)).

(** [for i in range(len(sentence))], collecting one mapping per index. *)
Definition extract_features (sentence : Sentence)
    (exclude_feature : option string) : option (list (gmap string value)) :=
  mapM (token_features sentence exclude_feature) (seq 0 (length sentence)).

(** ** Label extractor *)

Definition extract_labels (sentence : Sentence) : list value :=
  map t_label sentence.

(** ** Scope metric *)

(** [label != 'OS']: any value other than the string [OS] is in scope. *)
Definition is_in_scope (label : value) : bool :=
  negb (bool_decide (label = VStr "OS")).

(** [sum(1 for yt, yp in zip(y_true, y_pred) if cond(yt, yp))] *)
Definition count_pairs (cond : value -> value -> bool)
    (y_true y_pred : list value) : Z :=
  Z.of_nat (length (List.filter (fun p => cond p.1 p.2) (zip y_true y_pred))).

Definition true_positives (y_true y_pred : list value) : Z :=
  count_pairs (fun yt yp => is_in_scope yt && is_in_scope yp) y_true y_pred.

Definition false_positives (y_true y_pred : list value) : Z :=
  count_pairs (fun yt yp => negb (is_in_scope yt) && is_in_scope yp) y_true y_pred.

Definition false_negatives (y_true y_pred : list value) : Z :=
  count_pairs (fun yt yp => is_in_scope yt && negb (is_in_scope yp)) y_true y_pred.

Definition true_negatives (y_true y_pred : list value) : Z :=
  count_pairs (fun yt yp => negb (is_in_scope yt) && negb (is_in_scope yp))
    y_true y_pred.

(** Python's [/] on numbers, read over the rationals: it raises
    [ZeroDivisionError] (here [None]) when the divisor is zero. *)
Definition true_div (a b : Q) : option Q :=
  if Qeq_bool b 0 then None else Some (a / b)%Q.

(** [x > 0] on a rational. *)
Definition Qpositive (x : Q) : bool :=
  match (0 ?= x)%Q with
  | Lt => true
  | _ => false
  end.

Definition calculate_metrics (y_true y_pred : list value) : option (Q * Q * Q) :=
  let tp := true_positives y_true y_pred in
  let fp := false_positives y_true y_pred in
  let fn := false_negatives y_true y_pred in
  let tn := true_negatives y_true y_pred in
  precision ← (if (0 <? tp + fp)%Z
               then true_div (inject_Z tp) (inject_Z (tp + fp))
               else Some 0%Q);
  recall ← (if (0 <? tp + fn)%Z
            then true_div (inject_Z tp) (inject_Z (tp + fn))
            else Some 0%Q);
  f1_score ← (if Qpositive (precision + recall)
              then true_div (2 * (precision * recall)) (precision + recall)
              else Some 0%Q);
  Some (precision, recall, f1_score).

(** ** The table: rows, files and data frames *)

(** One row of the 21-column table; the fields are the entries of [columns],
    in order.  A line of the tab-separated file is a [Row string], a row of a
    data frame is a [Row value]. *)
Record Row (A : Type) : Type := mkRow {
  doc_id : A;
  sentence_num : A;
  token_num : A;
  token : A;
  lemma : A;
  pos : A;
  constituency : A;
  cue : A;
  label : A;
  focus : A;
  constituency_distance : A;
  same_clause : A;
  same_phrase : A;
  is_punct : A;
  sentence_position : A;
  is_negation_cue : A;
  token_distance : A;
  dependency_type : A;
  dependency_head : A;
  distance_to_root : A;
  distance_to_cue : A
}.

Arguments mkRow {A}.
Arguments doc_id {A}.
Arguments sentence_num {A}.
Arguments token_num {A}.
Arguments token {A}.
Arguments lemma {A}.
Arguments pos {A}.
Arguments constituency {A}.
Arguments cue {A}.
Arguments label {A}.
Arguments focus {A}.
Arguments constituency_distance {A}.
Arguments same_clause {A}.
Arguments same_phrase {A}.
Arguments is_punct {A}.
Arguments sentence_position {A}.
Arguments is_negation_cue {A}.
Arguments token_distance {A}.
Arguments dependency_type {A}.
Arguments dependency_head {A}.
Arguments distance_to_root {A}.
Arguments distance_to_cue {A}.

Abbreviation DataFrame := (list (Row value)).

(** The lines of a tab-separated file without header. *)
Abbreviation File := (list (Row string)).

(** The files on disk, by path. *)
Abbreviation FileSystem := (gmap string File).

Definition row_map {A B} (f : A -> B) (r : Row A) : Row B :=
  mkRow (f (doc_id r)) (f (sentence_num r)) (f (token_num r)) (f (token r))
    (f (lemma r)) (f (pos r)) (f (constituency r)) (f (cue r)) (f (label r))
    (f (focus r)) (f (constituency_distance r)) (f (same_clause r))
    (f (same_phrase r)) (f (is_punct r)) (f (sentence_position r))
    (f (is_negation_cue r)) (f (token_distance r)) (f (dependency_type r))
    (f (dependency_head r)) (f (distance_to_root r)) (f (distance_to_cue r)).

Definition row_zip_with {A B C} (f : A -> B -> C) (r : Row A) (s : Row B) : Row C :=
  mkRow (f (doc_id r) (doc_id s)) (f (sentence_num r) (sentence_num s))
    (f (token_num r) (token_num s)) (f (token r) (token s))
    (f (lemma r) (lemma s)) (f (pos r) (pos s))
    (f (constituency r) (constituency s)) (f (cue r) (cue s))
    (f (label r) (label s)) (f (focus r) (focus s))
    (f (constituency_distance r) (constituency_distance s))
    (f (same_clause r) (same_clause s)) (f (same_phrase r) (same_phrase s))
    (f (is_punct r) (is_punct s))
    (f (sentence_position r) (sentence_position s))
    (f (is_negation_cue r) (is_negation_cue s))
    (f (token_distance r) (token_distance s))
    (f (dependency_type r) (dependency_type s))
    (f (dependency_head r) (dependency_head s))
    (f (distance_to_root r) (distance_to_root s))
    (f (distance_to_cue r) (distance_to_cue s)).

(** A summary [f] of every column of a table. *)
Definition per_column {A B} (f : list A -> B) (rows : list (Row A)) : Row B :=
  mkRow (f (map doc_id rows)) (f (map sentence_num rows))
    (f (map token_num rows)) (f (map token rows)) (f (map lemma rows))
    (f (map pos rows)) (f (map constituency rows)) (f (map cue rows))
    (f (map label rows)) (f (map focus rows))
    (f (map constituency_distance rows)) (f (map same_clause rows))
    (f (map same_phrase rows)) (f (map is_punct rows))
    (f (map sentence_position rows)) (f (map is_negation_cue rows))
    (f (map token_distance rows)) (f (map dependency_type rows))
    (f (map dependency_head rows)) (f (map distance_to_root rows))
    (f (map distance_to_cue rows)).

(** The row with one column replaced: [row['label'] = v]. *)
Definition with_label {A} (r : Row A) (v : A) : Row A :=
  mkRow (doc_id r) (sentence_num r) (token_num r) (token r) (lemma r) (pos r)
    (constituency r) (cue r) v (focus r) (constituency_distance r)
    (same_clause r) (same_phrase r) (is_punct r) (sentence_position r)
    (is_negation_cue r) (token_distance r) (dependency_type r)
    (dependency_head r) (distance_to_root r) (distance_to_cue r).

(** ** The pandas calls of the script

    The script leaves reading, grouping and writing to pandas.  What follows
    is the behaviour of these calls with the arguments the script passes, as
    far as the script depends on it.  Lines always have their 21 fields;
    quoting is transparent and is not represented. *)

Inductive error : Type :=
  | FileNotFoundError
  | ValueError.

Inductive result (A : Type) : Type :=
  | Ok (a : A)
  | Raise (e : error).

Arguments Ok {A}.
Arguments Raise {A}.

(** The texts [read_csv] takes for a missing value by default. *)
Definition na_values : list string :=
  [ ""; "#N/A"; "#N/A N/A"; "#NA"; "-1.#IND"; "-1.#QNAN"; "-NaN"; "-nan";
    "1.#IND"; "1.#QNAN"; "<NA>"; "N/A"; "NA"; "NULL"; "NaN"; "None"; "n/a";
    "nan"; "null" ].

Definition is_na (s : string) : bool := bool_decide (s ∈ na_values).

(** A signed decimal literal that fits 64 bits.  The blanks that pandas
    skips around the digits, and the unsigned integers of 64 bits, are not
    represented: such a cell is kept as text. *)
Definition parse_int (s : string) : option Z :=
  z ← match s with
      | String "+"%char digits =>
          (fun d => Z.of_int (Decimal.Pos d)) <$> NilZero.uint_of_string digits
      | _ => Z.of_int <$> NilZero.int_of_string s
      end;
  if bool_decide (- 2 ^ 63 <= z < 2 ^ 63)%Z then Some z else None.

Definition parse_bool (s : string) : option bool :=
  if bool_decide (s ∈ ["True"; "TRUE"; "true"]) then Some true
  else if bool_decide (s ∈ ["False"; "FALSE"; "false"]) then Some false
  else None.

(** The type [read_csv] gives a column: integers when every cell is an
    integer literal, booleans when every cell is a boolean literal, Python
    objects (text, with [nan] for a missing value) otherwise.  A column that
    pandas would read as floating point is kept as text here. *)
Inductive dtype : Type :=
  | int64
  | bool_
  | object.

Definition infer_dtype (cells : list string) : dtype :=
  match cells with
  | [] => object
  | _ =>
      if forallb (fun s => bool_decide (is_Some (parse_int s))) cells then int64
      else if forallb (fun s => bool_decide (is_Some (parse_bool s))) cells then bool_
      else object
  end.

Definition parse_cell (d : dtype) (s : string) : value :=
  match d with
  | int64 => from_option VInt VNaN (parse_int s)
  | bool_ => from_option VBool VNaN (parse_bool s)
  | object => if is_na s then VNaN else VStr s
  end.

Definition parse_frame (lines : File) : DataFrame :=
  map (row_zip_with parse_cell (per_column infer_dtype lines)) lines.

(** [pd.read_csv(path, sep='\t', names=columns)]: with [names] given, a file
    without lines is read as a frame without rows. *)
Definition read_csv (fs : FileSystem) (path : string) : result DataFrame :=
  match fs !! path with
  | None => Raise FileNotFoundError
  | Some lines => Ok (parse_frame lines)
  end.

(** The text [to_csv] writes for a cell; a missing value is written as the
    empty text. *)
Definition render_cell (v : value) : string :=
  match v with
  | VNaN => ""
  | _ => py_str v
  end.

Definition render_frame (df : DataFrame) : File := map (row_map render_cell) df.

(** [df.to_csv(path, sep='\t', index=False, header=None)] *)
Definition to_csv (fs : FileSystem) (df : DataFrame) (path : string) : FileSystem :=
  <[path := render_frame df]> fs.

Definition nan_row : Row value :=
  mkRow VNaN VNaN VNaN VNaN VNaN VNaN VNaN VNaN VNaN VNaN VNaN VNaN VNaN VNaN
    VNaN VNaN VNaN VNaN VNaN VNaN VNaN.

(** The frame with the column [label] replaced, row by row. *)
Definition relabel (df : DataFrame) (values : list string) : DataFrame :=
  zip_with with_label df (VStr <$> values).

(** [df['label'] = values] for a list of strings.  A frame without rows
    takes its index from the list: it gets one row per value, missing in
    every other column.  Otherwise the lengths must agree. *)
Definition set_label (df : DataFrame) (values : list string) : result DataFrame :=
  match df, values with
  | [], _ :: _ => Ok (relabel (replicate (length values) nan_row) values)
  | _, _ =>
      if bool_decide (length values = length df)
      then Ok (relabel df values)
      else Raise ValueError
  end.

(** *** Grouping *)

(** The order in which [groupby] sorts the values of a key column.  The
    cells of one column are of one kind, so the order between kinds is never
    consulted on a frame that was read from a file. *)
Definition value_rank (v : value) : nat :=
  match v with
  | VBool _ => 0
  | VInt _ => 1
  | VStr _ => 2
  | VNaN => 3
  end.

Definition value_compare (a b : value) : comparison :=
  match a, b with
  | VStr s, VStr t => String.compare s t
  | VInt x, VInt y => Z.compare x y
  | VBool x, VBool y => Bool.compare x y
  | _, _ => Nat.compare (value_rank a) (value_rank b)
  end.

(** The key of [groupby(['doc_id', 'sentence_num'])]. *)
Abbreviation Key := (value * value)%type.

Definition row_key (r : Row value) : Key := (doc_id r, sentence_num r).

Definition key_compare (a b : Key) : comparison :=
  match value_compare a.1 b.1 with
  | Eq => value_compare a.2 b.2
  | c => c
  end.

(** [groupby] leaves out the rows with a missing value in a key column. *)
Definition key_missing (k : Key) : bool :=
  bool_decide (k.1 = VNaN) || bool_decide (k.2 = VNaN).

(** Adds a row to its group, keeping the groups sorted by key and the rows
    of a group in the order in which they arrive. *)
Fixpoint insert_group (k : Key) (r : Row value)
    (groups : list (Key * DataFrame)) : list (Key * DataFrame) :=
  match groups with
  | [] => [(k, [r])]
  | (k', g) :: rest =>
      match key_compare k k' with
      | Lt => (k, [r]) :: groups
      | Eq => (k', (g ++ [r])%list) :: rest
      | Gt => (k', g) :: insert_group k r rest
      end
  end.

(** The groups of [df.groupby(['doc_id', 'sentence_num'])], in the order in
    which the loop visits them. *)
Definition groupby (df : DataFrame) : list (Key * DataFrame) :=
  foldl (fun groups r =>
           if key_missing (row_key r) then groups
           else insert_group (row_key r) r groups) [] df.

(** ** Data loader *)

(** The tuple built for one row of a group. *)
Definition token_record (row : Row value) : TokenRecord :=
  mkToken (token row) (lemma row) (pos row) (cue row)
    (constituency_distance row) (same_clause row) (same_phrase row)
    (is_punct row) (sentence_position row) (is_negation_cue row)
    (token_distance row) (dependency_type row) (dependency_head row)
    (distance_to_root row) (distance_to_cue row) (label row).

Definition read_and_format_data (fs : FileSystem) (file_path : string)
  : result (list Sentence) :=
  match read_csv fs file_path with
  | Raise e => Raise e
  | Ok data_df => Ok (map (fun group => map token_record group.2) (groupby data_df))
  end.

(** ** Result writer *)

(** The outcome of the call and the files on disk after it. *)
Definition write_predictions_to_file (fs : FileSystem)
    (original_file_path : string)
    (sentences_with_predictions : list (list string))
    (output_file_path : string) : result unit * FileSystem :=
  match read_csv fs original_file_path with
  | Raise e => (Raise e, fs)
  | Ok original_df =>
      let predictions_flat := concat sentences_with_predictions in
      match set_label original_df predictions_flat with
      | Raise e => (Raise e, fs)
      | Ok original_df => (Ok (), to_csv fs original_df output_file_path)
      end
  end.

(** ** The scope metric in the words of the specification

    The counts are taken over the indices of the gold list; a ratio is zero
    when its denominator is zero. *)
Module MetricSpec.

Definition in_scope (label : value) : bool := bool_decide (label <> VStr "OS").

Definition holds_at (P : value -> value -> bool) (gold predicted : list value)
    (i : nat) : bool :=
  match gold !! i, predicted !! i with
  | Some g, Some p => P g p
  | _, _ => false
  end.

Definition count_indices (P : value -> value -> bool)
    (gold predicted : list value) : Z :=
  Z.of_nat (length (List.filter (holds_at P gold predicted) (seq 0 (length gold)))).

Definition TP (gold predicted : list value) : Z :=
  count_indices (fun g p => in_scope g && in_scope p) gold predicted.

Definition FP (gold predicted : list value) : Z :=
  count_indices (fun g p => negb (in_scope g) && in_scope p) gold predicted.

Definition FN (gold predicted : list value) : Z :=
  count_indices (fun g p => in_scope g && negb (in_scope p)) gold predicted.

Definition ratio_or_zero (num den : Z) : Q :=
  if (den =? 0)%Z then 0%Q else (inject_Z num / inject_Z den)%Q.

Definition f1_or_zero (p r : Q) : Q :=
  if Qeq_bool (p + r) 0 then 0%Q else (2 * p * r / (p + r))%Q.

Definition precision (gold predicted : list value) : Q :=
  ratio_or_zero (TP gold predicted) (TP gold predicted + FP gold predicted).

Definition recall (gold predicted : list value) : Q :=
  ratio_or_zero (TP gold predicted) (TP gold predicted + FN gold predicted).

Definition f1 (gold predicted : list value) : Q :=
  f1_or_zero (precision gold predicted) (recall gold predicted).

End MetricSpec.

(** The call returns normally, with the given numbers. *)
Definition returns (outcome : option (Q * Q * Q)) (precision recall f1 : Q) : Prop :=
  match outcome with
  | Some (p, r, f) => (p == precision /\ r == recall /\ f == f1)%Q
  | None => False
  end.

(** ** Notions used in the statements *)

(** The keys of the [features] display, in the order of the source. *)
Definition feature_names : list string :=
  [ "token"; "lemma"; "pos"; "lexicalized_pos"; "cue"; "prev_pos"; "next_pos";
    "constituency_distance"; "same_clause"; "same_phrase"; "is_punct";
    "sentence_position"; "is_negation_cue"; "token_distance";
    "dependency_type"; "dependency_head"; "distance_to_root";
    "distance_to_cue" ].

(** The part of speech before index [i], or the sentinel. *)
Definition prev_pos_at (sentence : Sentence) (i : nat) : option value :=
  match i with
  | 0 => Some (VStr "START")
  | S j => t_pos <$> sentence !! j
  end.

(** The part of speech after index [i], or the sentinel at the last index. *)
Definition next_pos_at (sentence : Sentence) (i : nat) : option value :=
  if decide (S i = length sentence) then Some (VStr "END")
  else t_pos <$> sentence !! S i.

(** The attributes of a token record other than the gold label, under the
    names of their keys. *)
Definition attribute_items (tok : TokenRecord) : list (string * value) :=
  [ ("token", t_token tok); ("lemma", t_lemma tok); ("pos", t_pos tok);
    ("cue", t_cue tok);
    ("constituency_distance", t_constituency_distance tok);
    ("same_clause", t_same_clause tok); ("same_phrase", t_same_phrase tok);
    ("is_punct", t_is_punct tok);
    ("sentence_position", t_sentence_position tok);
    ("is_negation_cue", t_is_negation_cue tok);
    ("token_distance", t_token_distance tok);
    ("dependency_type", t_dependency_type tok);
    ("dependency_head", t_dependency_head tok);
    ("distance_to_root", t_distance_to_root tok);
    ("distance_to_cue", t_distance_to_cue tok) ].

(** The keys that are computed rather than copied. *)
Definition derived_names : list string :=
  [ "lexicalized_pos"; "prev_pos"; "next_pos" ].

(** The mapping that the exclusion leaves: without the key [name] when it is
    a non-empty key of the mapping, unchanged otherwise. *)
Definition excluded (exclude_feature : option string)
    (features : gmap string value) : gmap string value :=
  match exclude_feature with
  | Some name =>
      if truthy name && bool_decide (is_Some (features !! name))
      then delete name features
      else features
  | None => features
  end.



(** *** The texts that [read_csv] reads as numbers or as booleans *)

(** The blanks that the number parsers skip. *)
Definition is_blank (c : ascii) : bool :=
  bool_decide (c ∈ [" "; "009"; "010"; "011"; "012"; "013"]%char).

Definition is_digit (c : ascii) : bool :=
  bool_decide (c ∈ ["0"; "1"; "2"; "3"; "4"; "5"; "6"; "7"; "8"; "9"]%char).

Fixpoint skip_blanks (s : string) : string :=
  match s with
  | String c rest => if is_blank c then skip_blanks rest else s
  | EmptyString => s
  end.

Definition skip_sign (s : string) : string :=
  match s with
  | String c rest => if bool_decide (c ∈ ["+"; "-"]%char) then rest else s
  | EmptyString => s
  end.

(** The number of leading digits, and what follows them. *)
Fixpoint skip_digits (s : string) : nat * string :=
  match s with
  | String c rest =>
      if is_digit c
      then let '(n, s') := skip_digits rest in (S n, s')
      else (0, s)
  | EmptyString => (0, s)
  end.

(** A floating-point literal: blanks, a sign, digits with at most one point
    among them and at least one digit, an exponent [e] or [E] with a sign
    and at least one digit, blanks.  An exponent mark without a digit is
    left unread, so that it is a character too many. *)
Definition float_literal (s : string) : bool :=
  let s := skip_sign (skip_blanks s) in
  let '(int_digits, s) := skip_digits s in
  let '(frac_digits, s) :=
    match s with
    | String "."%char rest => skip_digits rest
    | _ => (0, s)
    end in
  if (int_digits + frac_digits =? 0)%nat then false
  else
    let s :=
      match s with
      | String c rest =>
          if bool_decide (c ∈ ["e"; "E"]%char)
          then let '(exp_digits, s') := skip_digits (skip_sign rest) in
               if (exp_digits =? 0)%nat then s else s'
          else s
      | EmptyString => s
      end in
    match skip_blanks s with
    | EmptyString => true
    | String _ _ => false
    end.






(** A column as [read_csv] reads it. *)
Definition parse_column (cells : list string) : list value :=
  map (parse_cell (infer_dtype cells)) cells.



(** The keys of the groups increase strictly. *)
Definition increasing (groups : list (Key * list (Row value))) : Prop :=
  StronglySorted (fun a b => key_compare a b = Lt) groups.*1.

(** ** Example data *)

(** The example of the specification. *)
Definition example_gold : list value := [VStr "OS"; VStr "NEG"; VStr "OS"].
Definition example_predicted : list value := [VStr "OS"; VStr "NEG"; VStr "NEG"].

(** A sentence of two tokens. *)
Definition example_sentence : Sentence :=
  [ mkToken (VStr "He") (VStr "he") (VStr "PRP") (VStr "_") (VInt 1)
      (VBool true) (VBool false) (VBool false) (VInt 0) (VBool false) (VInt 1)
      (VStr "nsubj") (VInt 2) (VInt 1) (VInt 1) (VStr "OS");
    mkToken (VStr "not") (VStr "not") (VStr "RB") (VStr "not") (VInt 0)
      (VBool true) (VBool true) (VBool false) (VInt 1) (VBool true) (VInt 0)
      (VStr "neg") (VInt 2) (VInt 1) (VInt 0) (VStr "NEG") ].

(** A file of three lines in two sentences, a file of one line, and a file
    without lines. *)
Definition example_line_1 : Row string :=
  mkRow "wsj_1" "0" "0" "He" "he" "PRP" "NP" "_" "OS" "_" "1" "True" "False"
    "False" "0" "False" "1" "nsubj" "2" "1" "1".

Definition example_line_2 : Row string :=
  mkRow "wsj_1" "0" "1" "not" "not" "RB" "ADVP" "not" "NEG" "_" "0" "True"
    "True" "False" "1" "True" "0" "neg" "2" "1" "0".

Definition example_line_3 : Row string :=
  mkRow "wsj_1" "1" "0" "Yes" "yes" "UH" "INTJ" "_" "OS" "_" "-1" "False"
    "False" "False" "0" "False" "-1" "root" "0" "0" "-1".

Definition example_files : FileSystem :=
  {[ "dev.tsv" := [example_line_1; example_line_2; example_line_3];
     "one.tsv" := [example_line_1];
     "empty.tsv" := [] ]}.

(** ** Tactics *)

(** Membership in a list that is written out. *)
Ltac elem_of_concrete :=
  rewrite !elem_of_cons; repeat first [ left; reflexivity | right ].

(** ** Auxiliary facts on the metric *)

Section Counting.

Context {A : Type}.

Lemma length_filter_map (f : A -> bool) (g : nat -> A) (l : list nat) :
  length (List.filter f (map g l)) = length (List.filter (fun i => f (g i)) l).
Proof.
  induction l as [|i l IH]; simpl; [reflexivity|].
  destruct (f (g i)); simpl; rewrite IH; reflexivity.
Qed.

End Counting.

Lemma count_pairs_nonneg (cond : value -> value -> bool) (y_true y_pred : list value) :
  (0 <= count_pairs cond y_true y_pred)%Z.
Proof. unfold count_pairs. lia. Qed.

Lemma count_pairs_nil_l cond y_pred : count_pairs cond [] y_pred = 0%Z.
Proof. reflexivity. Qed.

Lemma count_pairs_cons cond yt y_true yp y_pred :
  count_pairs cond (yt :: y_true) (yp :: y_pred)
  = ((if cond yt yp then 1 else 0) + count_pairs cond y_true y_pred)%Z.
Proof.
  unfold count_pairs. simpl. destruct (cond yt yp); simpl length; lia.
Qed.

Lemma count_indices_cons P g gold p predicted :
  MetricSpec.count_indices P (g :: gold) (p :: predicted)
  = ((if P g p then 1 else 0) + MetricSpec.count_indices P gold predicted)%Z.
Proof.
  unfold MetricSpec.count_indices.
  change (length (g :: gold)) with (S (length gold)).
  rewrite <- cons_seq, <- seq_shift. cbn [List.filter].
  unfold MetricSpec.holds_at at 1. cbn [lookup list_lookup].
  destruct (P g p); cbn [length]; rewrite length_filter_map;
    change (fun i => MetricSpec.holds_at P (g :: gold) (p :: predicted) (S i))
      with (MetricSpec.holds_at P gold predicted); lia.
Qed.

(** On lists of one length, counting the pairs of [zip] is counting indices. *)
Lemma count_pairs_indices P (y_true y_pred : list value) :
  length y_true = length y_pred ->
  count_pairs P y_true y_pred = MetricSpec.count_indices P y_true y_pred.
Proof.
  revert y_pred. induction y_true as [|yt y_true IH]; intros [|yp y_pred] Hlen;
    try discriminate Hlen; [reflexivity|].
  rewrite count_pairs_cons, count_indices_cons, IH; [reflexivity|].
  simpl in Hlen. congruence.
Qed.

Lemma is_in_scope_spec label : is_in_scope label = MetricSpec.in_scope label.
Proof.
  unfold is_in_scope, MetricSpec.in_scope.
  destruct (decide (label = VStr "OS")) as [->|Hne].
  - reflexivity.
  - rewrite bool_decide_eq_false_2, bool_decide_eq_true_2; auto.
Qed.

Lemma count_pairs_ext (P P' : value -> value -> bool) y_true y_pred :
  (forall a b, P a b = P' a b) ->
  count_pairs P y_true y_pred = count_pairs P' y_true y_pred.
Proof.
  intros Hext. revert y_pred.
  induction y_true as [|yt y_true IH]; intros [|yp y_pred]; try reflexivity.
  rewrite !count_pairs_cons, Hext, IH. reflexivity.
Qed.

(** [zip] stops at the end of the shorter list. *)
Lemma count_pairs_take P (y_true y_pred : list value) :
  count_pairs P y_true y_pred
  = count_pairs P (take (length y_true `min` length y_pred) y_true)
                  (take (length y_true `min` length y_pred) y_pred).
Proof.
  revert y_pred. induction y_true as [|yt y_true IH]; intros [|yp y_pred];
    try reflexivity.
  cbn [length Nat.min take]. rewrite !count_pairs_cons, <- IH. reflexivity.
Qed.

Lemma Qpositive_spec (x : Q) : Qpositive x = true <-> (0 < x)%Q.
Proof.
  unfold Qpositive. rewrite Qlt_alt.
  destruct (0 ?= x)%Q; split; congruence.
Qed.

Lemma true_div_nonzero (a b : Q) :
  ~ (b == 0)%Q -> true_div a b = Some (a / b)%Q.
Proof.
  intros Hb. unfold true_div.
  destruct (Qeq_bool b 0) eqn:E; [|reflexivity].
  apply Qeq_bool_iff in E. contradiction.
Qed.

Lemma inject_Z_nonzero (d : Z) : d <> 0%Z -> ~ (inject_Z d == 0)%Q.
Proof. unfold Qeq. simpl. lia. Qed.

(** The guarded quotient of two counts is the ratio of the specification. *)
Lemma guarded_ratio (n d : Z) :
  (0 <= d)%Z ->
  (if (0 <? d)%Z then true_div (inject_Z n) (inject_Z d) else Some 0%Q)
  = Some (MetricSpec.ratio_or_zero n d).
Proof.
  intros Hd. unfold MetricSpec.ratio_or_zero.
  destruct (Z.ltb_spec 0 d) as [Hpos|Hle].
  - rewrite true_div_nonzero by (apply inject_Z_nonzero; lia).
    destruct (Z.eqb_spec d 0); [lia|reflexivity].
  - destruct (Z.eqb_spec d 0); [reflexivity|lia].
Qed.

Lemma ratio_or_zero_nonneg (n d : Z) :
  (0 <= n)%Z -> (0 <= d)%Z -> (0 <= MetricSpec.ratio_or_zero n d)%Q.
Proof.
  intros Hn Hd. unfold MetricSpec.ratio_or_zero.
  destruct (Z.eqb_spec d 0) as [|Hne]; [apply Qle_refl|].
  apply Qle_shift_div_l.
  - change 0%Q with (inject_Z 0). rewrite <- Zlt_Qlt. lia.
  - rewrite Qmult_0_l. change 0%Q with (inject_Z 0). rewrite <- Zle_Qle. lia.
Qed.

(** The guarded F1 quotient never divides by zero, and it is the F1 of the
    specification. *)
Lemma guarded_f1 (p r : Q) :
  (0 <= p)%Q -> (0 <= r)%Q ->
  exists f,
    (if Qpositive (p + r) then true_div (2 * (p * r)) (p + r) else Some 0%Q) = Some f
    /\ (f == MetricSpec.f1_or_zero p r)%Q
    /\ ((p + r == 0)%Q -> f = 0%Q).
Proof.
  intros Hp Hr. unfold MetricSpec.f1_or_zero.
  destruct (Qpositive (p + r)) eqn:Epos.
  - apply Qpositive_spec in Epos.
    assert (Hne : ~ (p + r == 0)%Q).
    { intros Heq. rewrite Heq in Epos. exact (Qlt_irrefl 0 Epos). }
    rewrite true_div_nonzero by exact Hne.
    eexists. split; [reflexivity|]. split.
    + destruct (Qeq_bool (p + r) 0) eqn:E.
      * apply Qeq_bool_iff in E. contradiction.
      * unfold Qdiv. rewrite Qmult_assoc. reflexivity.
    + intros Heq. contradiction.
  - exists 0%Q. split; [reflexivity|]. split; [|reflexivity].
    destruct (Qeq_bool (p + r) 0) eqn:E; [reflexivity|].
    exfalso. apply Qeq_bool_neq in E. apply E.
    apply Qle_antisym.
    + apply Qnot_lt_le. intros Hlt. apply Qpositive_spec in Hlt. congruence.
    + rewrite <- (Qplus_0_l 0). apply Qplus_le_compat; assumption.
Qed.

(** The result of [calculate_metrics] in closed form, on any two lists. *)
Lemma calculate_metrics_closed (y_true y_pred : list value) :
  let tp := true_positives y_true y_pred in
  let fp := false_positives y_true y_pred in
  let fn := false_negatives y_true y_pred in
  let p := MetricSpec.ratio_or_zero tp (tp + fp) in
  let r := MetricSpec.ratio_or_zero tp (tp + fn) in
  exists f,
    calculate_metrics y_true y_pred = Some (p, r, f)
    /\ (f == MetricSpec.f1_or_zero p r)%Q
    /\ ((p + r == 0)%Q -> f = 0%Q).
Proof.
  intros tp fp fn p r.
  assert (Htp : (0 <= tp)%Z) by apply count_pairs_nonneg.
  assert (Hfp : (0 <= fp)%Z) by apply count_pairs_nonneg.
  assert (Hfn : (0 <= fn)%Z) by apply count_pairs_nonneg.
  destruct (guarded_f1 p r) as (f & Hf & Hspec & Hzero).
  { apply ratio_or_zero_nonneg; lia. }
  { apply ratio_or_zero_nonneg; lia. }
  exists f. split; [|split; assumption].
  unfold calculate_metrics. fold tp fp fn. cbv zeta.
  rewrite !guarded_ratio by lia. cbn [mbind option_bind]. fold p r.
  rewrite Hf. reflexivity.
Qed.

(** ** The scope metric: claims C1, C3, C7 and C9 *)

Lemma counts_meet_spec (y_true y_pred : list value) :
  length y_true = length y_pred ->
  true_positives y_true y_pred = MetricSpec.TP y_true y_pred
  /\ false_positives y_true y_pred = MetricSpec.FP y_true y_pred
  /\ false_negatives y_true y_pred = MetricSpec.FN y_true y_pred.
Proof.
  intros Hlen.
  unfold true_positives, false_positives, false_negatives,
    MetricSpec.TP, MetricSpec.FP, MetricSpec.FN.
  rewrite <- !count_pairs_indices by exact Hlen.
  repeat split; apply count_pairs_ext; intros a b;
    rewrite !is_in_scope_spec; reflexivity.
Qed.

(** C1.  On label lists of equal length [calculate_metrics] returns the
    precision, recall and F1 of the specification: with a label in scope iff
    it is not the string [OS], TP, FP and FN count the indices where gold
    and predicted are both in scope, out and in, in and out; precision is
    TP/(TP+FP), recall is TP/(TP+FN), F1 is 2PR/(P+R), each 0 when its
    denominator is 0.  On gold [OS, NEG, OS] and predicted [OS, NEG, NEG]
    it returns 1/2, 1 and 2/3.  Numbers are rationals. *)
Theorem calculate_metrics_meets_spec :
  (forall y_true y_pred : list value,
     length y_true = length y_pred ->
     returns (calculate_metrics y_true y_pred)
       (MetricSpec.precision y_true y_pred)
       (MetricSpec.recall y_true y_pred)
       (MetricSpec.f1 y_true y_pred))
  /\ returns (calculate_metrics example_gold example_predicted) (1 # 2) 1 (2 # 3).
Proof.
  split.
  - intros y_true y_pred Hlen.
    destruct (calculate_metrics_closed y_true y_pred) as (f & Hcall & Hf & _).
    destruct (counts_meet_spec y_true y_pred Hlen) as (Htp & Hfp & Hfn).
    rewrite Hcall, Htp, Hfp, Hfn in *. cbn [returns].
    repeat split; try reflexivity. exact Hf.
  - vm_compute. repeat split; reflexivity.
Qed.

(** The general statement of C1 at the example of the specification. *)
Lemma calculate_metrics_meets_spec_witness :
  length example_gold = length example_predicted
  /\ returns (calculate_metrics example_gold example_predicted)
       (MetricSpec.precision example_gold example_predicted)
       (MetricSpec.recall example_gold example_predicted)
       (MetricSpec.f1 example_gold example_predicted).
Proof.
  split; [reflexivity|].
  apply (proj1 calculate_metrics_meets_spec example_gold example_predicted).
  reflexivity.
Defined.

Lemma count_pairs_all (P : value -> value -> bool) (y_true y_pred : list value) :
  length y_true = length y_pred ->
  (forall a b, a ∈ y_true -> b ∈ y_pred -> P a b = true) ->
  count_pairs P y_true y_pred = Z.of_nat (length y_true).
Proof.
  revert y_pred. induction y_true as [|yt y_true IH]; intros [|yp y_pred] Hlen HP;
    try discriminate Hlen; [reflexivity|].
  rewrite count_pairs_cons, HP, IH by (try (simpl in Hlen; congruence); set_solver).
  cbn [length]. lia.
Qed.

Lemma count_pairs_none (P : value -> value -> bool) (y_true y_pred : list value) :
  (forall a b, a ∈ y_true -> b ∈ y_pred -> P a b = false) ->
  count_pairs P y_true y_pred = 0%Z.
Proof.
  revert y_pred. induction y_true as [|yt y_true IH]; intros [|yp y_pred] HP;
    try reflexivity.
  rewrite count_pairs_cons, HP, IH by set_solver. reflexivity.
Qed.

Lemma is_in_scope_true label : label <> VStr "OS" -> is_in_scope label = true.
Proof.
  intros Hne. unfold is_in_scope. rewrite bool_decide_eq_false_2; auto.
Qed.

Lemma ratio_or_zero_same (n : Z) :
  (0 < n)%Z -> (MetricSpec.ratio_or_zero n (n + 0) == 1)%Q.
Proof.
  intros Hn. unfold MetricSpec.ratio_or_zero. rewrite Z.add_0_r.
  destruct (Z.eqb_spec n 0); [lia|].
  apply Qmult_inv_r, inject_Z_nonzero. lia.
Qed.

Lemma f1_or_zero_one (p r : Q) :
  (p == 1)%Q -> (r == 1)%Q -> (MetricSpec.f1_or_zero p r == 1)%Q.
Proof.
  intros Hp Hr. unfold MetricSpec.f1_or_zero.
  destruct (Qeq_bool (p + r) 0) eqn:E.
  - apply Qeq_bool_iff in E. rewrite Hp, Hr in E. discriminate E.
  - rewrite Hp, Hr. reflexivity.
Qed.

(** C3, as stated, fails on the empty lists: they have one length and no
    label out of scope, and the three numbers returned are 0. *)
Lemma all_in_scope_empty_counterexample :
  length (@nil value) = length (@nil value)
  /\ Forall (fun l => l <> VStr "OS") (@nil value)
  /\ calculate_metrics [] [] = Some (0, 0, 0)%Q
  /\ ~ (exists p r, returns (calculate_metrics [] []) p r 1).
Proof.
  repeat split; [constructor|].
  intros (p & r & H). cbn in H. destruct H as (_ & _ & H). discriminate H.
Qed.

(** C3, amended.  On non-empty label lists of one length in which no label
    is the string [OS], [calculate_metrics] returns precision, recall and F1
    equal to 1, whether or not a predicted label equals its gold label. *)
Theorem all_in_scope_scores_one (y_true y_pred : list value) :
  y_true <> [] ->
  length y_true = length y_pred ->
  Forall (fun l => l <> VStr "OS") y_true ->
  Forall (fun l => l <> VStr "OS") y_pred ->
  returns (calculate_metrics y_true y_pred) 1 1 1.
Proof.
  intros Hne Hlen Ht Hp.
  rewrite Forall_forall in Ht, Hp.
  assert (Hin : forall a b, a ∈ y_true -> b ∈ y_pred ->
                  is_in_scope a = true /\ is_in_scope b = true).
  { intros a b Ha Hb. split; apply is_in_scope_true; auto. }
  assert (Htp : true_positives y_true y_pred = Z.of_nat (length y_true)).
  { apply count_pairs_all; [exact Hlen|]. intros a b Ha Hb.
    destruct (Hin a b Ha Hb) as [-> ->]. reflexivity. }
  assert (Hfp : false_positives y_true y_pred = 0%Z).
  { apply count_pairs_none. intros a b Ha Hb.
    destruct (Hin a b Ha Hb) as [-> ->]. reflexivity. }
  assert (Hfn : false_negatives y_true y_pred = 0%Z).
  { apply count_pairs_none. intros a b Ha Hb.
    destruct (Hin a b Ha Hb) as [-> ->]. reflexivity. }
  assert (Hpos : (0 < Z.of_nat (length y_true))%Z).
  { destruct y_true; [congruence|]. cbn [length]. lia. }
  destruct (calculate_metrics_closed y_true y_pred) as (f & Hcall & Hf & _).
  rewrite Hcall, Htp, Hfp, Hfn in *. cbn [returns].
  pose proof (ratio_or_zero_same _ Hpos) as Hone.
  repeat split; try exact Hone.
  rewrite Hf. apply f1_or_zero_one; exact Hone.
Qed.

(** The amended C3 on two lists that agree at no index. *)
Lemma all_in_scope_scores_one_witness :
  returns (calculate_metrics [VStr "NEG"; VStr "CUE"] [VStr "CUE"; VStr "NEG"]) 1 1 1.
Proof.
  apply all_in_scope_scores_one.
  - discriminate.
  - reflexivity.
  - repeat constructor; discriminate.
  - repeat constructor; discriminate.
Defined.

Lemma is_in_scope_OS : is_in_scope (VStr "OS") = false.
Proof. reflexivity. Qed.

Lemma ratio_or_zero_zero_den (n d : Z) :
  d = 0%Z -> MetricSpec.ratio_or_zero n d = 0%Q.
Proof. intros ->. reflexivity. Qed.

(** C7.  [calculate_metrics] never divides by zero: on any two label lists it
    returns normally; the precision is 0 when TP + FP = 0, the recall is 0
    when TP + FN = 0, the F1 is 0 when precision + recall is 0; and when
    every gold and every predicted label is [OS], all three are 0. *)
Theorem calculate_metrics_never_divides_by_zero (y_true y_pred : list value) :
  exists p r f,
    calculate_metrics y_true y_pred = Some (p, r, f)
    /\ ((true_positives y_true y_pred + false_positives y_true y_pred = 0)%Z
        -> p = 0%Q)
    /\ ((true_positives y_true y_pred + false_negatives y_true y_pred = 0)%Z
        -> r = 0%Q)
    /\ ((p + r == 0)%Q -> f = 0%Q)
    /\ (Forall (fun l => l = VStr "OS") y_true ->
        Forall (fun l => l = VStr "OS") y_pred ->
        p = 0%Q /\ r = 0%Q /\ f = 0%Q).
Proof.
  destruct (calculate_metrics_closed y_true y_pred) as (f & Hcall & _ & Hzero).
  cbv zeta in Hcall, Hzero.
  eexists _, _, f. split; [exact Hcall|].
  split; [apply ratio_or_zero_zero_den|].
  split; [apply ratio_or_zero_zero_den|].
  split; [exact Hzero|].
  intros Ht Hp. rewrite Forall_forall in Ht, Hp.
  assert (Htp : true_positives y_true y_pred = 0%Z).
  { apply count_pairs_none. intros a b Ha Hb. rewrite (Ht a Ha). reflexivity. }
  assert (Hfp : false_positives y_true y_pred = 0%Z).
  { apply count_pairs_none. intros a b Ha Hb.
    rewrite (Ht a Ha), (Hp b Hb). reflexivity. }
  assert (Hfn : false_negatives y_true y_pred = 0%Z).
  { apply count_pairs_none. intros a b Ha Hb. rewrite (Ht a Ha). reflexivity. }
  rewrite Htp, Hfp, Hfn in *.
  repeat split; try reflexivity. apply Hzero. reflexivity.
Qed.

(** [zip] stops at the end of the shorter list, so the result is that of
    the two prefixes of the smaller length. *)
Lemma calculate_metrics_take (y_true y_pred : list value) :
  calculate_metrics y_true y_pred
  = calculate_metrics (take (length y_true `min` length y_pred) y_true)
                      (take (length y_true `min` length y_pred) y_pred).
Proof.
  unfold calculate_metrics, true_positives, false_positives, false_negatives.
  rewrite <- !count_pairs_take. reflexivity.
Qed.

(** The trailing labels of the longer list do not matter. *)
Lemma calculate_metrics_ignores_tail (y_true y_pred extra : list value) :
  length y_true = length y_pred ->
  calculate_metrics y_true (y_pred ++ extra) = calculate_metrics y_true y_pred
  /\ calculate_metrics (y_true ++ extra) y_pred = calculate_metrics y_true y_pred.
Proof.
  intros Hlen. split.
  - rewrite (calculate_metrics_take y_true (y_pred ++ extra)).
    rewrite length_app, Hlen, Nat.min_l by lia.
    rewrite take_app_length. rewrite <- Hlen, firstn_all. reflexivity.
  - rewrite (calculate_metrics_take (y_true ++ extra) y_pred).
    rewrite length_app, <- Hlen, Nat.min_r by lia.
    rewrite take_app_length. rewrite Hlen, firstn_all. reflexivity.
Qed.

(** C9.  [calculate_metrics] returns normally on lists of any two lengths,
    and only the common prefix counts: with [n] the smaller length, TP, FP,
    FN and TN are those of the first [n] labels of each list, and so is the
    result, whatever labels the longer list holds after them. *)
Theorem calculate_metrics_common_prefix (y_true y_pred : list value) :
  let n := length y_true `min` length y_pred in
  is_Some (calculate_metrics y_true y_pred)
  /\ true_positives y_true y_pred = true_positives (take n y_true) (take n y_pred)
  /\ false_positives y_true y_pred = false_positives (take n y_true) (take n y_pred)
  /\ false_negatives y_true y_pred = false_negatives (take n y_true) (take n y_pred)
  /\ true_negatives y_true y_pred = true_negatives (take n y_true) (take n y_pred)
  /\ calculate_metrics y_true y_pred
     = calculate_metrics (take n y_true) (take n y_pred).
Proof.
  intros n. split.
  { destruct (calculate_metrics_closed y_true y_pred) as (f & -> & _). eauto. }
  repeat split; try apply count_pairs_take. apply calculate_metrics_take.
Qed.

(** ** Feature builder and label extractor: claims C2, C4, C5 and C8 *)

Lemma feature_items_names tok prev_pos next_pos :
  (feature_items tok prev_pos next_pos).*1 = feature_names.
Proof. reflexivity. Qed.

Lemma NoDup_feature_names : NoDup feature_names.
Proof. apply (bool_decide_unpack _). vm_compute. exact I. Qed.

Lemma length_feature_names : length feature_names = 18.
Proof. reflexivity. Qed.

Section DictLiteral.

Implicit Types (items : list (string * value)) (m : gmap string value).

Lemma foldl_insert_reverse items m :
  foldl (fun m kv => <[kv.1 := kv.2]> m) m items
  = foldr (fun kv m => <[kv.1 := kv.2]> m) m (reverse items).
Proof.
  revert m. induction items as [|kv items IH]; intros m; [reflexivity|].
  cbn [foldl]. rewrite IH, reverse_cons, foldr_app. reflexivity.
Qed.

Lemma dict_literal_list_to_map items :
  dict_literal items = list_to_map (reverse items).
Proof. unfold dict_literal. rewrite foldl_insert_reverse. reflexivity. Qed.

Lemma dict_literal_lookup items k v :
  NoDup items.*1 -> (k, v) ∈ items -> dict_literal items !! k = Some v.
Proof.
  intros Hnd Hin. rewrite dict_literal_list_to_map.
  apply elem_of_list_to_map_1.
  - rewrite fmap_reverse, reverse_Permutation. exact Hnd.
  - apply elem_of_reverse, Hin.
Qed.

Lemma dict_literal_dom items :
  dom (dict_literal items) = list_to_set items.*1.
Proof.
  rewrite dict_literal_list_to_map, dom_list_to_map_L, fmap_reverse.
  apply set_eq. intros k. rewrite !elem_of_list_to_set, elem_of_reverse.
  reflexivity.
Qed.

Lemma dict_literal_size items :
  NoDup items.*1 -> size (dict_literal items) = length items.
Proof.
  intros Hnd. rewrite <- size_dom, dict_literal_dom.
  rewrite size_list_to_set by exact Hnd. apply length_fmap.
Qed.

End DictLiteral.

(** The guard keeps [del] from raising: the exclusion always returns, and
    what it returns is [excluded]. *)
Lemma exclude_Some exclude_feature (features : gmap string value) :
  exclude exclude_feature features = Some (excluded exclude_feature features).
Proof.
  destruct exclude_feature as [name|]; [|reflexivity].
  cbn [exclude excluded]. unfold del_item.
  destruct (truthy name); [|reflexivity]. cbn [andb].
  destruct (bool_decide (is_Some (features !! name))); reflexivity.
Qed.

(** The loop body succeeds at every index of the sentence, with the
    neighbouring parts of speech of [prev_pos_at] and [next_pos_at]. *)
Lemma token_features_Some (sentence : Sentence) exclude_feature i tok :
  sentence !! i = Some tok ->
  exists prev_pos next_pos,
    prev_pos_at sentence i = Some prev_pos
    /\ next_pos_at sentence i = Some next_pos
    /\ token_features sentence exclude_feature i
       = Some (excluded exclude_feature
                 (dict_literal (feature_items tok prev_pos next_pos))).
Proof.
  intros Htok. pose proof (lookup_lt_Some _ _ _ Htok) as Hlt.
  assert (Hprev : exists prev_pos, prev_pos_at sentence i = Some prev_pos
            /\ (if bool_decide (0 < Z.of_nat i)%Z
                then t_pos <$> sentence !! Z.to_nat (Z.of_nat i - 1)
                else Some (VStr "START")) = Some prev_pos).
  { destruct i as [|j].
    - exists (VStr "START"). split; reflexivity.
    - rewrite bool_decide_eq_true_2 by lia.
      replace (Z.to_nat (Z.of_nat (S j) - 1)) with j by lia. cbn [prev_pos_at].
      destruct (lookup_lt_is_Some_2 sentence j) as [prev Hprev]; [lia|].
      exists (t_pos prev). rewrite Hprev. split; reflexivity. }
  assert (Hnext : exists next_pos, next_pos_at sentence i = Some next_pos
            /\ (if bool_decide (Z.of_nat i < Z.of_nat (length sentence) - 1)%Z
                then t_pos <$> sentence !! Z.to_nat (Z.of_nat i + 1)
                else Some (VStr "END")) = Some next_pos).
  { unfold next_pos_at. destruct (decide (S i = length sentence)) as [Hlast|Hmid].
    - rewrite bool_decide_eq_false_2 by lia. eauto.
    - rewrite bool_decide_eq_true_2 by lia.
      replace (Z.to_nat (Z.of_nat i + 1)) with (S i) by lia.
      destruct (lookup_lt_is_Some_2 sentence (S i)) as [next Hnext]; [lia|].
      exists (t_pos next). rewrite Hnext. split; reflexivity. }
  destruct Hprev as (prev_pos & Hp & Hp'), Hnext as (next_pos & Hn & Hn').
  exists prev_pos, next_pos. split; [exact Hp|]. split; [exact Hn|].
  unfold token_features. rewrite Htok, Hp', Hn'. cbn [mbind option_bind].
  apply exclude_Some.
Qed.

(** [extract_features] returns one mapping per token. *)
Lemma extract_features_Some (sentence : Sentence) exclude_feature :
  exists features,
    extract_features sentence exclude_feature = Some features
    /\ length features = length sentence
    /\ forall i tok, sentence !! i = Some tok ->
         exists prev_pos next_pos,
           prev_pos_at sentence i = Some prev_pos
           /\ next_pos_at sentence i = Some next_pos
           /\ features !! i
              = Some (excluded exclude_feature
                        (dict_literal (feature_items tok prev_pos next_pos))).
Proof.
  unfold extract_features.
  destruct (mapM (token_features sentence exclude_feature)
              (seq 0 (length sentence))) as [features|] eqn:Hmap.
  - exists features. split; [reflexivity|].
    pose proof (length_mapM _ _ _ Hmap) as Hlen. rewrite length_seq in Hlen.
    split; [congruence|]. intros i tok Htok.
    pose proof (lookup_lt_Some _ _ _ Htok) as Hlt.
    destruct (token_features_Some sentence exclude_feature i tok Htok)
      as (prev_pos & next_pos & Hp & Hn & Hbody).
    exists prev_pos, next_pos. split; [exact Hp|]. split; [exact Hn|].
    apply mapM_Some_1 in Hmap.
    destruct (Forall2_lookup_l _ _ _ i i Hmap) as (m & Hm & Hfi).
    { apply lookup_seq. lia. }
    rewrite Hm. congruence.
  - exfalso. apply mapM_None_1, Exists_exists in Hmap.
    destruct Hmap as (i & Hi & Hnone).
    apply list_elem_of_lookup in Hi. destruct Hi as (j & Hj).
    apply lookup_seq in Hj. destruct Hj as [-> Hlt].
    destruct (lookup_lt_is_Some_2 sentence (0 + j)) as [tok Htok]; [lia|].
    destruct (token_features_Some sentence exclude_feature _ tok Htok)
      as (? & ? & _ & _ & Hbody).
    congruence.
Qed.

(** The keys and the size of the mapping before any exclusion. *)
Lemma features_dom tok prev_pos next_pos :
  dom (dict_literal (feature_items tok prev_pos next_pos))
  = list_to_set feature_names.
Proof. rewrite dict_literal_dom, feature_items_names. reflexivity. Qed.

Lemma features_size tok prev_pos next_pos :
  size (dict_literal (feature_items tok prev_pos next_pos)) = 18.
Proof.
  rewrite dict_literal_size; [reflexivity|].
  rewrite feature_items_names. apply NoDup_feature_names.
Qed.

Lemma features_lookup tok prev_pos next_pos k v :
  (k, v) ∈ feature_items tok prev_pos next_pos ->
  dict_literal (feature_items tok prev_pos next_pos) !! k = Some v.
Proof.
  apply dict_literal_lookup. rewrite feature_items_names.
  apply NoDup_feature_names.
Qed.

Lemma features_lookup_is_Some tok prev_pos next_pos k :
  is_Some (dict_literal (feature_items tok prev_pos next_pos) !! k)
  <-> k ∈ feature_names.
Proof.
  rewrite <- elem_of_dom, features_dom, elem_of_list_to_set. reflexivity.
Qed.

Lemma attribute_items_features tok prev_pos next_pos k v :
  (k, v) ∈ attribute_items tok -> (k, v) ∈ feature_items tok prev_pos next_pos.
Proof.
  unfold attribute_items, feature_items. rewrite !elem_of_cons.
  intros H. repeat (destruct H as [H|H]; [tauto|]).
  apply elem_of_nil in H. contradiction.
Qed.

Lemma feature_names_split tok :
  list_to_set feature_names
  =@{gset string} list_to_set ((attribute_items tok).*1 ++ derived_names).
Proof.
  apply set_eq. intros k. rewrite !elem_of_list_to_set.
  unfold feature_names, derived_names.
  cbn [attribute_items fmap list_fmap fst app].
  rewrite !elem_of_cons. tauto.
Qed.

(** C2, as stated, fails: on the two tokens of [example_sentence] each
    mapping built without exclusion has 18 keys, not 17. *)
Lemma seventeen_keys_counterexample :
  option_map (map (fun m : gmap string value => size m))
    (extract_features example_sentence None)
  = Some [18; 18]
  /\ 18 <> 17.
Proof. split; [vm_compute; reflexivity|discriminate]. Qed.

(** C2, amended.  Without an excluded feature, [extract_features] returns for
    every token a mapping with exactly 18 keys: the 15 attributes of the
    token other than the gold label, each under its name and with its value,
    and the three derived keys [lexicalized_pos], which is the lemma, an
    underscore and the part of speech, [prev_pos] and [next_pos].  The gold
    label is not a key. *)
Theorem extract_features_keys (sentence : Sentence) :
  exists features,
    extract_features sentence None = Some features
    /\ forall i tok, sentence !! i = Some tok ->
         exists m,
           features !! i = Some m
           /\ size m = 18
           /\ dom m = list_to_set ((attribute_items tok).*1 ++ derived_names)
           /\ length (attribute_items tok) = 15
           /\ (forall k v, (k, v) ∈ attribute_items tok -> m !! k = Some v)
           /\ m !! "lexicalized_pos"
              = Some (VStr (py_str (t_lemma tok) ++ "_" ++ py_str (t_pos tok)))
           /\ is_Some (m !! "prev_pos")
           /\ is_Some (m !! "next_pos")
           /\ m !! "label" = None.
Proof.
  destruct (extract_features_Some sentence None) as (features & Hcall & _ & Hat).
  exists features. split; [exact Hcall|]. intros i tok Htok.
  destruct (Hat i tok Htok) as (prev_pos & next_pos & _ & _ & Hm).
  cbn [excluded] in Hm. eexists. split; [exact Hm|].
  split; [apply features_size|].
  split; [rewrite features_dom; apply feature_names_split|].
  split; [reflexivity|].
  split.
  { intros k v Hkv. apply features_lookup, attribute_items_features, Hkv. }
  split.
  { apply features_lookup. unfold feature_items. elem_of_concrete. }
  split.
  { apply features_lookup_is_Some. unfold feature_names. elem_of_concrete. }
  split.
  { apply features_lookup_is_Some. unfold feature_names. elem_of_concrete. }
  apply eq_None_not_Some. rewrite features_lookup_is_Some.
  unfold feature_names. rewrite !elem_of_cons, elem_of_nil.
  intros H. repeat (destruct H as [H|H]; [discriminate H|]). exact H.
Qed.

Lemma exclude_lookup_other exclude_feature (m : gmap string value) k :
  exclude_feature <> Some k -> excluded exclude_feature m !! k = m !! k.
Proof.
  intros Hne. destruct exclude_feature as [name|]; [|reflexivity].
  cbn [excluded].
  destruct (truthy name && bool_decide (is_Some (m !! name))); [|reflexivity].
  apply lookup_delete_ne. congruence.
Qed.

(** C4.  [extract_features] returns one mapping per token of the sentence, in
    order, and at every index [i] the mapping has [prev_pos] equal to the
    part of speech of token [i - 1], or to [START] when [i = 0], and
    [next_pos] equal to the part of speech of token [i + 1], or to [END] at
    the last index.  This holds for every sentence, the empty one included,
    and under any exclusion other than that of the key looked at. *)
Theorem extract_features_neighbours (sentence : Sentence)
    (exclude_feature : option string) :
  exists features,
    extract_features sentence exclude_feature = Some features
    /\ length features = length sentence
    /\ forall i tok, sentence !! i = Some tok ->
         exists m,
           features !! i = Some m
           /\ is_Some (prev_pos_at sentence i)
           /\ is_Some (next_pos_at sentence i)
           /\ (exclude_feature <> Some "prev_pos" ->
               m !! "prev_pos" = prev_pos_at sentence i)
           /\ (exclude_feature <> Some "next_pos" ->
               m !! "next_pos" = next_pos_at sentence i).
Proof.
  destruct (extract_features_Some sentence exclude_feature)
    as (features & Hcall & Hlen & Hat).
  exists features. split; [exact Hcall|]. split; [exact Hlen|].
  intros i tok Htok.
  destruct (Hat i tok Htok) as (prev_pos & next_pos & Hp & Hn & Hm).
  eexists. split; [exact Hm|]. rewrite Hp, Hn.
  split; [eauto|]. split; [eauto|].
  split; intros Hne; rewrite exclude_lookup_other by exact Hne;
    apply features_lookup; unfold feature_items; elem_of_concrete.
Qed.

Lemma feature_names_truthy name : name ∈ feature_names -> truthy name = true.
Proof.
  unfold feature_names. rewrite !elem_of_cons, elem_of_nil.
  intros H. repeat (destruct H as [->|H]; [reflexivity|]). contradiction.
Qed.

(** What the exclusion does to one mapping of the feature builder. *)
Lemma exclude_features tok prev_pos next_pos name :
  let m := dict_literal (feature_items tok prev_pos next_pos) in
  (name ∈ feature_names -> excluded (Some name) m = delete name m)
  /\ (name ∉ feature_names -> excluded (Some name) m = m).
Proof.
  intros m. subst m. cbn [excluded]. split; intros Hname.
  - rewrite (feature_names_truthy name Hname), bool_decide_eq_true_2;
      [reflexivity|]. apply features_lookup_is_Some, Hname.
  - rewrite bool_decide_eq_false_2, andb_false_r; [reflexivity|].
    rewrite features_lookup_is_Some. exact Hname.
Qed.

(** C5.  Let [base] be the mappings built without exclusion and [features]
    those built with [name] excluded; both calls return, with one mapping
    for every token of the sentence, and the mapping of [base] for a token
    is the one written out in the source, with its 18 keys.  When [name] is
    one of these keys, every mapping of [features] is the one of [base] at
    the same index without the key [name]: the key is gone and every other
    key keeps its value.  When [name] is not a key (the empty string
    included), [features] is [base], and no error is raised: the [del] that
    would raise [KeyError] is not reached. *)
Theorem exclude_feature_frame (sentence : Sentence) (name : string) :
  exists base features,
    extract_features sentence None = Some base
    /\ extract_features sentence (Some name) = Some features
    /\ length base = length sentence
    /\ length features = length sentence
    /\ (forall i tok, sentence !! i = Some tok ->
          exists prev_pos next_pos,
            prev_pos_at sentence i = Some prev_pos
            /\ next_pos_at sentence i = Some next_pos
            /\ base !! i = Some (dict_literal (feature_items tok prev_pos next_pos)))
    /\ (forall i m, base !! i = Some m ->
          (is_Some (m !! name) <-> name ∈ feature_names)
          /\ size m = 18
          /\ (name ∈ feature_names ->
              exists m',
                features !! i = Some m'
                /\ m' = delete name m
                /\ m' !! name = None
                /\ (forall k, k <> name -> m' !! k = m !! k)
                /\ dom m' = dom m ∖ {[name]}
                /\ size m' = 17)
          /\ (name ∉ feature_names -> features !! i = Some m))
    /\ (name ∉ feature_names -> features = base).
Proof.
  destruct (extract_features_Some sentence None) as (base & Hbase & Hlenb & Hatb).
  destruct (extract_features_Some sentence (Some name))
    as (features & Hfeat & Hlenf & Hatf).
  exists base, features. split; [exact Hbase|]. split; [exact Hfeat|].
  split; [exact Hlenb|]. split; [exact Hlenf|].
  split.
  { intros i tok Htok.
    destruct (Hatb i tok Htok) as (pp & np & Hp & Hn & Hb).
    exists pp, np. split; [exact Hp|]. split; [exact Hn|]. exact Hb. }
  assert (Hpoint : forall i m, base !! i = Some m ->
    exists tok prev_pos next_pos,
      m = dict_literal (feature_items tok prev_pos next_pos)
      /\ features !! i = Some (excluded (Some name) m)).
  { intros i m Hm.
    destruct (lookup_lt_is_Some_2 sentence i) as [tok Htok].
    { rewrite <- Hlenb. eapply lookup_lt_Some, Hm. }
    destruct (Hatb i tok Htok) as (pp & np & Hp & Hn & Hb).
    destruct (Hatf i tok Htok) as (pp' & np' & Hp' & Hn' & Hf).
    assert (pp' = pp) by congruence. assert (np' = np) by congruence. subst.
    cbn [excluded] in Hb. exists tok, pp, np.
    assert (m = dict_literal (feature_items tok pp np)) as -> by congruence.
    split; [reflexivity|exact Hf]. }
  split.
  - intros i m Hm.
    destruct (Hpoint i m Hm) as (tok & pp & np & -> & Hf).
    destruct (exclude_features tok pp np name) as [Hkey Hother].
    split; [apply features_lookup_is_Some|].
    split; [apply features_size|]. split.
    + intros Hname. eexists. split; [exact Hf|].
      rewrite (Hkey Hname). split; [reflexivity|].
      split; [apply lookup_delete_eq|].
      split; [intros k Hk; apply lookup_delete_ne; congruence|].
      split; [apply dom_delete_L|].
      pose proof (features_size tok pp np) as Hsize.
      destruct (proj2 (features_lookup_is_Some tok pp np name) Hname) as [v Hv].
      pose proof (map_size_delete name
                    (dict_literal (feature_items tok pp np))) as Hdel.
      rewrite Hv in Hdel. lia.
    + intros Hname. rewrite Hf, (Hother Hname). reflexivity.
  - intros Hname. apply list_eq. intros i.
    destruct (base !! i) as [m|] eqn:Hm.
    + destruct (Hpoint i m Hm) as (tok & pp & np & -> & Hf).
      rewrite Hf, (proj2 (exclude_features tok pp np name) Hname). reflexivity.
    + apply lookup_ge_None in Hm. apply lookup_ge_None. lia.
Qed.

(** C8.  [extract_labels] is a total function: on every sentence it returns
    a list of the length of the sentence whose entry at each index is the
    gold label of the token at that index. *)
Theorem extract_labels_projects (sentence : Sentence) :
  length (extract_labels sentence) = length sentence
  /\ (forall i, extract_labels sentence !! i = t_label <$> sentence !! i)
  /\ extract_labels sentence = t_label <$> sentence.
Proof.
  unfold extract_labels. split; [apply length_map|].
  split; [|reflexivity]. intros i. apply list_lookup_fmap.
Qed.

(** ** Loader and writer: claims C6 and C10 *)

(** *** The order of the keys *)

Lemma value_compare_antisym a b :
  value_compare b a = CompOpp (value_compare a b).
Proof.
  destruct a as [s|x|[]|], b as [t|y|[]|]; try reflexivity; cbn [value_compare].
  - apply String.compare_antisym.
  - apply Z.compare_antisym.
Qed.

Lemma value_compare_eq a b : value_compare a b = Eq -> a = b.
Proof.
  destruct a as [s|x|[]|], b as [t|y|[]|]; cbn; try discriminate;
    try reflexivity.
  - intros H. apply String.compare_eq_iff in H. congruence.
  - intros H. apply Z.compare_eq_iff in H. congruence.
Qed.

Lemma key_compare_antisym (a b : Key) :
  key_compare b a = CompOpp (key_compare a b).
Proof.
  unfold key_compare. rewrite (value_compare_antisym a.1 b.1).
  destruct (value_compare a.1 b.1); cbn [CompOpp]; try reflexivity.
  apply value_compare_antisym.
Qed.

Lemma key_compare_eq (a b : Key) : key_compare a b = Eq -> a = b.
Proof.
  unfold key_compare. destruct a as [a1 a2], b as [b1 b2]. cbn [fst snd].
  destruct (value_compare a1 b1) eqn:E1; try discriminate.
  intros E2. apply value_compare_eq in E1, E2. congruence.
Qed.

(** *** Grouping a frame that is sorted by key *)

Lemma insert_group_keys k r (groups : list (Key * list (Row value))) k' :
  k' ∈ (insert_group k r groups).*1 -> k' = k \/ k' ∈ groups.*1.
Proof.
  induction groups as [|[k0 g] rest IH]; cbn [insert_group].
  - cbn. rewrite list_elem_of_singleton. tauto.
  - destruct (key_compare k k0); cbn [fmap list_fmap fst];
      rewrite ?elem_of_cons; cbn [fmap list_fmap fst] in *; tauto.
Qed.






Lemma relabel_keys (df : DataFrame) (values : list string) :
  length values = length df -> row_key <$> relabel df values = row_key <$> df.
Proof.
  unfold relabel. revert values.
  induction df as [|r df IH]; intros [|v values] Hlen; try discriminate Hlen;
    [reflexivity|].
  cbn [fmap list_fmap zip_with]. f_equal. apply IH. simpl in Hlen. congruence.
Qed.

Lemma relabel_labels (df : DataFrame) (values : list string) :
  length values = length df -> label <$> relabel df values = VStr <$> values.
Proof.
  unfold relabel. revert values.
  induction df as [|r df IH]; intros [|v values] Hlen; try discriminate Hlen;
    [reflexivity|].
  cbn [fmap list_fmap zip_with]. f_equal. apply IH. simpl in Hlen. congruence.
Qed.


Lemma set_label_mismatch (df : DataFrame) (values : list string) :
  df <> [] -> length values <> length df -> set_label df values = Raise ValueError.
Proof.
  intros Hne Hlen. unfold set_label.
  destruct df as [|r df]; [congruence|].
  rewrite bool_decide_eq_false_2 by exact Hlen. destruct values; reflexivity.
Qed.


(** *** Reading back what was written *)

(** The literals of the number parser, by example. *)
Example float_literal_examples :
  map float_literal ["1.5"; " 12 "; "-.5e-3"; "5."; "1e5"; "+7"; "1e"; "."; "e5"; "OS"; "1.2.3"; ""; "-"]
  = [true; true; true; true; true; true; false; false; false; false; false; false; false].
Proof. reflexivity. Qed.

Lemma parse_frame_column (col : forall A, Row A -> A) (lines : File) :
  (forall (d : Row dtype) (l : Row string),
     col value (row_zip_with parse_cell d l) = parse_cell (col dtype d) (col string l)) ->
  (forall rows : File,
     col dtype (per_column infer_dtype rows) = infer_dtype (map (col string) rows)) ->
  map (col value) (parse_frame lines) = parse_column (map (col string) lines).
Proof.
  intros Hzip Hper. unfold parse_frame, parse_column.
  rewrite !map_map. apply map_ext. intros l. rewrite Hzip, Hper. reflexivity.
Qed.

Lemma parse_frame_doc_id (lines : File) :
  map doc_id (parse_frame lines) = parse_column (map doc_id lines).
Proof. apply (parse_frame_column (@doc_id)); reflexivity. Qed.

Lemma parse_frame_sentence_num (lines : File) :
  map sentence_num (parse_frame lines) = parse_column (map sentence_num lines).
Proof. apply (parse_frame_column (@sentence_num)); reflexivity. Qed.

















(** C10, as stated, fails.  The file [empty.tsv] has no line, so no row is
    read from it, and one label is predicted; the assignment raises nothing:
    the frame takes one row from the list, and a file of one line is
    written, empty in every column but the label. *)
Lemma mismatch_empty_file_counterexample :
  read_csv example_files "empty.tsv" = Ok []
  /\ length (concat [["OS"]]) <> length (@nil (Row value))
  /\ write_predictions_to_file example_files "empty.tsv" [["OS"]] "out.tsv"
     = (Ok (),
        <["out.tsv" := [mkRow "" "" "" "" "" "" "" "" "OS" "" "" "" "" "" ""
                          "" "" "" "" "" ""]]> example_files).
Proof.
  split; [reflexivity|]. split; [discriminate|]. vm_compute. reflexivity.
Qed.

(** C10, amended.  When the original file has at least one row and the
    flattened predictions are not as many as its rows, the assignment to the
    column [label] raises [ValueError]; nothing is written: the files on
    disk are those before the call. *)
Theorem length_mismatch_raises (fs : FileSystem)
    (original_file_path output_file_path : string)
    (sentences_with_predictions : list (list string)) (df : DataFrame) :
  read_csv fs original_file_path = Ok df ->
  df <> [] ->
  length (concat sentences_with_predictions) <> length df ->
  set_label df (concat sentences_with_predictions) = Raise ValueError
  /\ write_predictions_to_file fs original_file_path sentences_with_predictions
       output_file_path
     = (Raise ValueError, fs).
Proof.
  intros Hread Hne Hlen.
  pose proof (set_label_mismatch df _ Hne Hlen) as Hset.
  split; [exact Hset|].
  unfold write_predictions_to_file. rewrite Hread. cbv zeta. rewrite Hset.
  reflexivity.
Qed.

(** The amended C10 on the file of three lines and two predicted labels. *)
Lemma length_mismatch_raises_witness :
  write_predictions_to_file example_files "dev.tsv" [["OS"]; ["NEG"]] "out.tsv"
  = (Raise ValueError, example_files).
Proof.
  apply (length_mismatch_raises example_files "dev.tsv" "out.tsv"
           [["OS"]; ["NEG"]]
           (parse_frame [example_line_1; example_line_2; example_line_3])).
  - reflexivity.
  - discriminate.
  - cbn. lia.
Defined.

(** ** Further properties of the scope metric *)

Lemma count_pairs_swap (P : value -> value -> bool) (y_true y_pred : list value) :
  count_pairs P y_true y_pred = count_pairs (fun a b => P b a) y_pred y_true.
Proof.
  revert y_pred. induction y_true as [|yt y_true IH]; intros [|yp y_pred];
    try reflexivity.
  rewrite !count_pairs_cons, IH. reflexivity.
Qed.

Lemma ratio_or_zero_le_1 (n d : Z) :
  (0 <= n <= d)%Z -> (MetricSpec.ratio_or_zero n d <= 1)%Q.
Proof.
  intros Hnd. unfold MetricSpec.ratio_or_zero.
  destruct (Z.eqb_spec d 0) as [|Hne]; [discriminate|].
  apply Qle_shift_div_r.
  - change 0%Q with (inject_Z 0). rewrite <- Zlt_Qlt. lia.
  - rewrite Qmult_1_l, <- Zle_Qle. lia.
Qed.

Lemma f1_or_zero_bounds (p r : Q) :
  (0 <= p <= 1)%Q -> (0 <= r <= 1)%Q ->
  (0 <= MetricSpec.f1_or_zero p r <= 1)%Q.
Proof.
  intros [Hp0 Hp1] [Hr0 Hr1]. unfold MetricSpec.f1_or_zero.
  destruct (Qeq_bool (p + r) 0) eqn:E.
  - split; [apply Qle_refl|discriminate].
  - apply Qeq_bool_neq in E.
    assert (Hpos : (0 < p + r)%Q).
    { apply Qle_lteq in Hp0. apply Qle_lteq in Hr0.
      destruct (Qlt_le_dec 0 (p + r)) as [|Hle]; [assumption|].
      exfalso. apply E. apply Qle_antisym; [exact Hle|].
      rewrite <- (Qplus_0_l 0). apply Qplus_le_compat; apply Qle_lteq; assumption. }
    split.
    + apply Qle_shift_div_l; [exact Hpos|]. rewrite Qmult_0_l.
      apply Qmult_le_0_compat; [|exact Hr0].
      apply Qmult_le_0_compat; [discriminate|exact Hp0].
    + apply Qle_shift_div_r; [exact Hpos|]. rewrite Qmult_1_l.
      nra.
Qed.

(** X1.  The three numbers returned by [calculate_metrics] lie between 0
    and 1, on any two label lists. *)
Theorem calculate_metrics_bounds (y_true y_pred : list value) :
  exists p r f,
    calculate_metrics y_true y_pred = Some (p, r, f)
    /\ (0 <= p <= 1)%Q /\ (0 <= r <= 1)%Q /\ (0 <= f <= 1)%Q.
Proof.
  destruct (calculate_metrics_closed y_true y_pred) as (f & Hcall & Hf & _).
  cbv zeta in Hcall, Hf.
  pose proof (count_pairs_nonneg
    (fun yt yp => is_in_scope yt && is_in_scope yp) y_true y_pred) as Htp.
  pose proof (count_pairs_nonneg
    (fun yt yp => negb (is_in_scope yt) && is_in_scope yp) y_true y_pred) as Hfp.
  pose proof (count_pairs_nonneg
    (fun yt yp => is_in_scope yt && negb (is_in_scope yp)) y_true y_pred) as Hfn.
  fold (true_positives y_true y_pred) in Htp.
  fold (false_positives y_true y_pred) in Hfp.
  fold (false_negatives y_true y_pred) in Hfn.
  assert (Hp : (0 <= MetricSpec.ratio_or_zero (true_positives y_true y_pred)
                  (true_positives y_true y_pred + false_positives y_true y_pred)
                <= 1)%Q).
  { split; [apply ratio_or_zero_nonneg|apply ratio_or_zero_le_1]; lia. }
  assert (Hr : (0 <= MetricSpec.ratio_or_zero (true_positives y_true y_pred)
                  (true_positives y_true y_pred + false_negatives y_true y_pred)
                <= 1)%Q).
  { split; [apply ratio_or_zero_nonneg|apply ratio_or_zero_le_1]; lia. }
  eexists _, _, f. split; [exact Hcall|]. split; [exact Hp|]. split; [exact Hr|].
  rewrite Hf. apply f1_or_zero_bounds; assumption.
Qed.

Lemma f1_or_zero_comm (p r : Q) :
  (MetricSpec.f1_or_zero p r == MetricSpec.f1_or_zero r p)%Q.
Proof.
  unfold MetricSpec.f1_or_zero.
  assert (Hsum : (p + r == r + p)%Q) by ring.
  rewrite Hsum. destruct (Qeq_bool (r + p) 0); [reflexivity|].
  rewrite Hsum. unfold Qdiv. ring.
Qed.

(** X2.  Exchanging the gold and the predicted list exchanges precision and
    recall and keeps the F1. *)
Theorem calculate_metrics_swap (y_true y_pred : list value) :
  exists p r f,
    calculate_metrics y_true y_pred = Some (p, r, f)
    /\ returns (calculate_metrics y_pred y_true) r p f.
Proof.
  destruct (calculate_metrics_closed y_true y_pred) as (f & Hcall & Hf & _).
  destruct (calculate_metrics_closed y_pred y_true) as (f' & Hcall' & Hf' & _).
  cbv zeta in Hcall, Hf, Hcall', Hf'.
  assert (Htp : true_positives y_pred y_true = true_positives y_true y_pred).
  { unfold true_positives. rewrite count_pairs_swap.
    apply count_pairs_ext. intros a b. apply andb_comm. }
  assert (Hfp : false_positives y_pred y_true = false_negatives y_true y_pred).
  { unfold false_positives, false_negatives. rewrite count_pairs_swap.
    apply count_pairs_ext. intros a b. apply andb_comm. }
  assert (Hfn : false_negatives y_pred y_true = false_positives y_true y_pred).
  { unfold false_positives, false_negatives. rewrite count_pairs_swap.
    apply count_pairs_ext. intros a b. apply andb_comm. }
  rewrite Htp, Hfp, Hfn in Hcall', Hf'.
  eexists _, _, f. split; [exact Hcall|]. rewrite Hcall'. cbn [returns].
  repeat split; try reflexivity.
  rewrite Hf, Hf'. apply f1_or_zero_comm.
Qed.


(** The F1 of two ratios with one numerator. *)
Lemma f1_of_ratios (a b c : Z) :
  (0 < a)%Z -> (0 <= b)%Z -> (0 <= c)%Z ->
  (MetricSpec.f1_or_zero (MetricSpec.ratio_or_zero a (a + b))
                         (MetricSpec.ratio_or_zero a (a + c))
   == inject_Z (2 * a) / inject_Z (2 * a + b + c))%Q.
Proof.
  intros Ha Hb Hc. unfold MetricSpec.ratio_or_zero.
  destruct (Z.eqb_spec (a + b) 0); [lia|]. destruct (Z.eqb_spec (a + c) 0); [lia|].
  assert (Hpos : forall d, (0 < d)%Z -> (0 < inject_Z d)%Q).
  { intros d Hd. change 0%Q with (inject_Z 0). rewrite <- Zlt_Qlt. exact Hd. }
  assert (Hp : (0 < inject_Z a / inject_Z (a + b))%Q).
  { apply Qlt_shift_div_l; [apply Hpos; lia|]. rewrite Qmult_0_l. apply Hpos, Ha. }
  assert (Hr : (0 < inject_Z a / inject_Z (a + c))%Q).
  { apply Qlt_shift_div_l; [apply Hpos; lia|]. rewrite Qmult_0_l. apply Hpos, Ha. }
  unfold MetricSpec.f1_or_zero.
  destruct (Qeq_bool _ 0) eqn:E.
  - exfalso. apply Qeq_bool_iff in E. lra.
  - replace (2 * a + b + c)%Z with ((a + b) + (a + c))%Z by lia.
    rewrite inject_Z_mult, (inject_Z_plus (a + b) (a + c)).
    assert (Hab : ~ (inject_Z (a + b) == 0)%Q) by (apply inject_Z_nonzero; lia).
    assert (Hac : ~ (inject_Z (a + c) == 0)%Q) by (apply inject_Z_nonzero; lia).
    assert (Hna : ~ (inject_Z a == 0)%Q) by (apply inject_Z_nonzero; lia).
    assert (Hd : ~ (inject_Z (a + b) + inject_Z (a + c) == 0)%Q).
    { pose proof (Hpos (a + b)%Z ltac:(lia)). pose proof (Hpos (a + c)%Z ltac:(lia)).
      lra. }
    field. repeat split; try assumption.
    intros Heq.
    pose proof (Hpos a Ha) as Pa.
    pose proof (Hpos (a + b)%Z ltac:(lia)) as Pb.
    pose proof (Hpos (a + c)%Z ltac:(lia)) as Pc.
    nra.
Qed.

Lemma ratio_or_zero_zero_num (d : Z) : (MetricSpec.ratio_or_zero 0 d == 0)%Q.
Proof.
  unfold MetricSpec.ratio_or_zero. destruct (d =? 0)%Z; [reflexivity|].
  unfold Qdiv. apply Qmult_0_l.
Qed.

(** The F1 returned, from the counts alone. *)
Lemma f1_from_counts (y_true y_pred : list value) :
  exists p r f,
    calculate_metrics y_true y_pred = Some (p, r, f)
    /\ (f == MetricSpec.ratio_or_zero (2 * true_positives y_true y_pred)
              (2 * true_positives y_true y_pred + false_positives y_true y_pred
               + false_negatives y_true y_pred))%Q.
Proof.
  destruct (calculate_metrics_closed y_true y_pred) as (f & Hcall & Hf & Hzero).
  cbv zeta in Hcall, Hf, Hzero.
  pose proof (count_pairs_nonneg
    (fun yt yp => is_in_scope yt && is_in_scope yp) y_true y_pred) as Htp.
  pose proof (count_pairs_nonneg
    (fun yt yp => negb (is_in_scope yt) && is_in_scope yp) y_true y_pred) as Hfp.
  pose proof (count_pairs_nonneg
    (fun yt yp => is_in_scope yt && negb (is_in_scope yp)) y_true y_pred) as Hfn.
  fold (true_positives y_true y_pred) in Htp.
  fold (false_positives y_true y_pred) in Hfp.
  fold (false_negatives y_true y_pred) in Hfn.
  eexists _, _, f. split; [exact Hcall|].
  destruct (Z.eq_dec (true_positives y_true y_pred) 0%Z) as [H0|Hne].
  - rewrite H0 in *. cbn [Z.mul].
    rewrite Hzero, ratio_or_zero_zero_num; [reflexivity|].
    rewrite !ratio_or_zero_zero_num. reflexivity.
  - rewrite Hf, f1_of_ratios by lia.
    unfold MetricSpec.ratio_or_zero.
    destruct (Z.eqb_spec (2 * true_positives y_true y_pred
                          + false_positives y_true y_pred
                          + false_negatives y_true y_pred) 0); [lia|reflexivity].
Qed.

Lemma Qdiv_eq_0 (a b : Z) :
  b <> 0%Z -> (inject_Z a / inject_Z b == 0)%Q <-> a = 0%Z.
Proof.
  intros Hb. pose proof (inject_Z_nonzero b Hb) as Hnz. split.
  - intros H.
    assert (Heq : (inject_Z a == 0)%Q).
    { rewrite <- (Qmult_div_r (inject_Z a) (inject_Z b)) by exact Hnz.
      rewrite H. ring. }
    unfold Qeq in Heq. simpl in Heq. lia.
  - intros ->. unfold Qdiv. apply Qmult_0_l.
Qed.

(** X3.  The F1 is 0 exactly when no label pair is a true positive. *)
Theorem f1_is_zero_iff (y_true y_pred : list value) :
  exists p r f,
    calculate_metrics y_true y_pred = Some (p, r, f)
    /\ ((f == 0)%Q <-> true_positives y_true y_pred = 0%Z).
Proof.
  destruct (f1_from_counts y_true y_pred) as (p & r & f & Hcall & Hf).
  pose proof (count_pairs_nonneg
    (fun yt yp => is_in_scope yt && is_in_scope yp) y_true y_pred) as Htp.
  pose proof (count_pairs_nonneg
    (fun yt yp => negb (is_in_scope yt) && is_in_scope yp) y_true y_pred) as Hfp.
  pose proof (count_pairs_nonneg
    (fun yt yp => is_in_scope yt && negb (is_in_scope yp)) y_true y_pred) as Hfn.
  fold (true_positives y_true y_pred) in Htp.
  fold (false_positives y_true y_pred) in Hfp.
  fold (false_negatives y_true y_pred) in Hfn.
  exists p, r, f. split; [exact Hcall|]. rewrite Hf.
  unfold MetricSpec.ratio_or_zero.
  destruct (Z.eqb_spec (2 * true_positives y_true y_pred
                        + false_positives y_true y_pred
                        + false_negatives y_true y_pred) 0) as [H0|Hne].
  - split; [lia|reflexivity].
  - rewrite Qdiv_eq_0 by exact Hne. lia.
Qed.

Lemma Qdiv_eq_1 (a b : Z) :
  b <> 0%Z -> (inject_Z a / inject_Z b == 1)%Q <-> a = b.
Proof.
  intros Hb. pose proof (inject_Z_nonzero b Hb) as Hnz. split.
  - intros H.
    assert (Heq : (inject_Z a == inject_Z b)%Q).
    { rewrite <- (Qmult_div_r (inject_Z a) (inject_Z b)) by exact Hnz.
      rewrite H. ring. }
    unfold Qeq in Heq. simpl in Heq. lia.
  - intros ->. apply Qmult_inv_r, Hnz.
Qed.

(** X4.  The F1 is 1 exactly when some label pair is a true positive and
    there is neither a false positive nor a false negative. *)
Theorem f1_is_one_iff (y_true y_pred : list value) :
  exists p r f,
    calculate_metrics y_true y_pred = Some (p, r, f)
    /\ ((f == 1)%Q <->
        (0 < true_positives y_true y_pred)%Z
        /\ false_positives y_true y_pred = 0%Z
        /\ false_negatives y_true y_pred = 0%Z).
Proof.
  destruct (f1_from_counts y_true y_pred) as (p & r & f & Hcall & Hf).
  pose proof (count_pairs_nonneg
    (fun yt yp => is_in_scope yt && is_in_scope yp) y_true y_pred) as Htp.
  pose proof (count_pairs_nonneg
    (fun yt yp => negb (is_in_scope yt) && is_in_scope yp) y_true y_pred) as Hfp.
  pose proof (count_pairs_nonneg
    (fun yt yp => is_in_scope yt && negb (is_in_scope yp)) y_true y_pred) as Hfn.
  fold (true_positives y_true y_pred) in Htp.
  fold (false_positives y_true y_pred) in Hfp.
  fold (false_negatives y_true y_pred) in Hfn.
  exists p, r, f. split; [exact Hcall|]. rewrite Hf.
  unfold MetricSpec.ratio_or_zero.
  destruct (Z.eqb_spec (2 * true_positives y_true y_pred
                        + false_positives y_true y_pred
                        + false_negatives y_true y_pred) 0) as [H0|Hne].
  - split; [intros H; discriminate H|lia].
  - rewrite Qdiv_eq_1 by exact Hne. lia.
Qed.

Lemma count_pairs_Forall2 (R : value -> value -> Prop) (P : value -> value -> bool)
    (y_true y_true' y_pred y_pred' : list value) :
  (forall a a' b b', R a a' -> R b b' -> P a b = P a' b') ->
  Forall2 R y_true y_true' -> Forall2 R y_pred y_pred' ->
  count_pairs P y_true y_pred = count_pairs P y_true' y_pred'.
Proof.
  intros HP Ht. revert y_pred y_pred'.
  induction Ht as [|a a' y_true y_true' Ha Ht IH]; intros y_pred y_pred' Hp.
  - reflexivity.
  - destruct Hp as [|b b' y_pred y_pred' Hb Hp]; [reflexivity|].
    rewrite !count_pairs_cons, (HP a a' b b' Ha Hb), (IH _ _ Hp). reflexivity.
Qed.

(** X5.  Only whether a label is [OS] counts, not which label it is:
    replacing labels by labels that are in scope exactly when the originals
    are leaves the result unchanged. *)
Theorem calculate_metrics_only_scope (y_true y_true' y_pred y_pred' : list value) :
  Forall2 (fun a b => is_in_scope a = is_in_scope b) y_true y_true' ->
  Forall2 (fun a b => is_in_scope a = is_in_scope b) y_pred y_pred' ->
  calculate_metrics y_true y_pred = calculate_metrics y_true' y_pred'.
Proof.
  intros Ht Hp.
  assert (H : forall P : value -> value -> bool,
    (forall a a' b b', is_in_scope a = is_in_scope a' ->
       is_in_scope b = is_in_scope b' -> P a b = P a' b') ->
    count_pairs P y_true y_pred = count_pairs P y_true' y_pred').
  { intros P HP.
    exact (count_pairs_Forall2 (fun a b => is_in_scope a = is_in_scope b) P
             _ _ _ _ HP Ht Hp). }
  unfold calculate_metrics, true_positives, false_positives, false_negatives.
  rewrite (H (fun yt yp => is_in_scope yt && is_in_scope yp)),
    (H (fun yt yp => negb (is_in_scope yt) && is_in_scope yp)),
    (H (fun yt yp => is_in_scope yt && negb (is_in_scope yp)))
    by (intros a a' b b' Ha Hb; cbv beta; rewrite Ha, Hb; reflexivity).
  reflexivity.
Qed.

(** X5 on two pairs of lists that share no in-scope label. *)
Lemma calculate_metrics_only_scope_witness :
  calculate_metrics [VStr "NEG"; VStr "OS"; VStr "CUE"]
                    [VStr "OS"; VStr "OS"; VStr "NEG"]
  = calculate_metrics [VStr "B"; VStr "OS"; VInt 1]
                      [VStr "OS"; VStr "OS"; VNaN].
Proof.
  apply calculate_metrics_only_scope; repeat constructor.
Defined.

(** X6.  Every pair of [zip] falls in exactly one of the four counts: they
    add up to the length of the shorter list. *)
Theorem counts_partition (y_true y_pred : list value) :
  (true_positives y_true y_pred + false_positives y_true y_pred
   + false_negatives y_true y_pred + true_negatives y_true y_pred
   = Z.of_nat (length y_true `min` length y_pred))%Z.
Proof.
  unfold true_positives, false_positives, false_negatives, true_negatives.
  revert y_pred. induction y_true as [|yt y_true IH]; intros [|yp y_pred];
    try reflexivity.
  rewrite !count_pairs_cons. cbn [length Nat.min].
  specialize (IH y_pred).
  destruct (is_in_scope yt), (is_in_scope yp); cbn [andb negb]; lia.
Qed.

(** ** Further properties of the feature builder *)

(** The list [features_to_ablate] of the script. *)
Definition features_to_ablate : list string :=
  [ "token"; "lemma"; "pos"; "lexicalized_pos"; "prev_pos"; "next_pos"; "cue";
    "constituency_distance"; "same_clause"; "same_phrase"; "is_punct";
    "sentence_position"; "is_negation_cue"; "token_distance";
    "dependency_type"; "dependency_head"; "distance_to_root";
    "distance_to_cue" ].

Lemma features_to_ablate_names : features_to_ablate ≡ₚ feature_names.
Proof. apply (bool_decide_unpack _). vm_compute. exact I. Qed.

(** X7.  The ablation list names every key of the feature mapping exactly
    once, so no run of the ablation is a silent no-op: for every name of the
    list, every mapping built with that name excluded has 17 keys and lacks
    that name. *)
Theorem every_ablation_removes_a_key :
  features_to_ablate ≡ₚ feature_names
  /\ NoDup features_to_ablate
  /\ forall feature (sentence : Sentence),
       feature ∈ features_to_ablate ->
       exists features,
         extract_features sentence (Some feature) = Some features
         /\ length features = length sentence
         /\ Forall (fun m : gmap string value =>
                      size m = 17 /\ m !! feature = None) features.
Proof.
  split; [exact features_to_ablate_names|].
  split; [rewrite features_to_ablate_names; exact NoDup_feature_names|].
  intros feature sentence Hin. rewrite features_to_ablate_names in Hin.
  destruct (extract_features_Some sentence (Some feature))
    as (features & Hcall & Hlen & Hat).
  exists features. split; [exact Hcall|]. split; [exact Hlen|].
  apply Forall_lookup. intros i m Hm.
  destruct (lookup_lt_is_Some_2 sentence i) as [tok Htok].
  { rewrite <- Hlen. eapply lookup_lt_Some, Hm. }
  destruct (Hat i tok Htok) as (pp & np & _ & _ & Hm').
  assert (m = excluded (Some feature) (dict_literal (feature_items tok pp np)))
    as -> by congruence.
  rewrite (proj1 (exclude_features tok pp np feature) Hin).
  split; [|apply lookup_delete_eq].
  rewrite map_size_delete_Some, features_size; [reflexivity|].
  apply features_lookup_is_Some, Hin.
Qed.

(** X8.  Without exclusion the mappings of neighbouring tokens agree: the
    [next_pos] of a token is the [pos] of the token after it, and the
    [prev_pos] of that token is the [pos] of the token before it. *)
Theorem neighbours_agree (sentence : Sentence) :
  exists features,
    extract_features sentence None = Some features
    /\ forall i m m',
         features !! i = Some m -> features !! S i = Some m' ->
         m !! "next_pos" = m' !! "pos" /\ m' !! "prev_pos" = m !! "pos".
Proof.
  destruct (extract_features_Some sentence None) as (features & Hcall & Hlen & Hat).
  exists features. split; [exact Hcall|]. intros i m m' Hm Hm'.
  destruct (lookup_lt_is_Some_2 sentence i) as [tok Htok].
  { rewrite <- Hlen. eapply lookup_lt_Some, Hm. }
  destruct (lookup_lt_is_Some_2 sentence (S i)) as [tok' Htok'].
  { rewrite <- Hlen. eapply lookup_lt_Some, Hm'. }
  destruct (Hat i tok Htok) as (pp & np & _ & Hn & Hi).
  destruct (Hat (S i) tok' Htok') as (pp' & np' & Hp' & _ & Hi').
  cbn [excluded] in Hi, Hi'.
  assert (m = dict_literal (feature_items tok pp np)) as -> by congruence.
  assert (m' = dict_literal (feature_items tok' pp' np')) as -> by congruence.
  unfold next_pos_at in Hn. pose proof (lookup_lt_Some _ _ _ Htok') as Hlt.
  destruct (decide (S i = length sentence)) as [Heq|_]; [lia|].
  rewrite Htok' in Hn. cbn [prev_pos_at] in Hp'. rewrite Htok in Hp'.
  cbn in Hn, Hp'. injection Hn as <-. injection Hp' as <-.
  rewrite !(features_lookup _ _ _ "next_pos" (t_pos tok')),
    !(features_lookup _ _ _ "pos" (t_pos tok')),
    !(features_lookup _ _ _ "prev_pos" (t_pos tok)),
    !(features_lookup _ _ _ "pos" (t_pos tok))
    by (unfold feature_items; elem_of_concrete).
  split; reflexivity.
Qed.

(** ** Further properties of the loader *)

(** The rows of the group with key [k], if there is one. *)
Fixpoint rows_of (k : Key) (groups : list (Key * list (Row value)))
  : list (Row value) :=
  match groups with
  | [] => []
  | (k', g) :: rest => if decide (k' = k) then g else rows_of k rest
  end.

(** The rows of a frame that [groupby] puts under the key [k]. *)
Definition rows_with_key (k : Key) (df : DataFrame) : list (Row value) :=
  filter (fun r => key_missing (row_key r) = false /\ row_key r = k) df.

Lemma string_compare_trans (a b c : string) :
  String.compare a b = Lt -> String.compare b c = Lt -> String.compare a c = Lt.
Proof.
  intros Hab Hbc.
  apply OrderedTypeEx.String_as_OT.cmp_lt.
  apply OrderedTypeEx.String_as_OT.cmp_lt in Hab, Hbc.
  exact (OrderedTypeEx.String_as_OT.lt_trans _ _ _ Hab Hbc).
Qed.

Lemma value_compare_trans (a b c : value) :
  value_compare a b = Lt -> value_compare b c = Lt -> value_compare a c = Lt.
Proof.
  destruct a as [s|x|[]|], b as [t|y|[]|], c as [u|z|[]|]; cbn;
    try discriminate; try reflexivity.
  - apply string_compare_trans.
  - rewrite !Z.compare_lt_iff. lia.
Qed.

Lemma key_compare_trans (a b c : Key) :
  key_compare a b = Lt -> key_compare b c = Lt -> key_compare a c = Lt.
Proof.
  unfold key_compare. destruct a as [a1 a2], b as [b1 b2], c as [c1 c2].
  cbn [fst snd].
  destruct (value_compare a1 b1) eqn:Eab; try discriminate;
    destruct (value_compare b1 c1) eqn:Ebc; try discriminate; intros H1 H2.
  - apply value_compare_eq in Eab, Ebc. subst.
    assert (Hrefl : value_compare c1 c1 = Eq).
    { pose proof (value_compare_antisym c1 c1) as H.
      destruct (value_compare c1 c1); cbn in H; congruence. }
    rewrite Hrefl. exact (value_compare_trans _ _ _ H1 H2).
  - apply value_compare_eq in Eab. subst. rewrite Ebc. reflexivity.
  - apply value_compare_eq in Ebc. subst. rewrite Eab. reflexivity.
  - rewrite (value_compare_trans _ _ _ Eab Ebc). reflexivity.
Qed.

Lemma key_compare_refl (k : Key) : key_compare k k = Eq.
Proof.
  pose proof (key_compare_antisym k k) as H.
  destruct (key_compare k k); cbn in H; congruence.
Qed.

Lemma key_compare_lt_ne (a b : Key) : key_compare a b = Lt -> a <> b.
Proof. intros H ->. rewrite key_compare_refl in H. discriminate. Qed.

Lemma insert_group_increasing k r (groups : list (Key * list (Row value))) :
  increasing groups -> increasing (insert_group k r groups).
Proof.
  unfold increasing.
  induction groups as [|[k0 g] rest IH]; intros Hinc.
  - repeat constructor.
  - cbn [fmap list_fmap fst] in Hinc.
    apply StronglySorted_inv in Hinc. destruct Hinc as [Hrest Hk0].
    cbn [insert_group]. destruct (key_compare k k0) eqn:Ecmp.
    + cbn [fmap list_fmap fst]. constructor; assumption.
    + cbn [fmap list_fmap fst]. constructor.
      * constructor; assumption.
      * constructor; [exact Ecmp|].
        eapply Forall_impl; [exact Hk0|]. intros k'' Hlt.
        exact (key_compare_trans _ _ _ Ecmp Hlt).
    + cbn [fmap list_fmap fst]. constructor; [exact (IH Hrest)|].
      apply Forall_forall. intros k' Hk'.
      apply insert_group_keys in Hk'. destruct Hk' as [->|Hk'].
      * rewrite key_compare_antisym, Ecmp. reflexivity.
      * rewrite Forall_forall in Hk0. apply Hk0, Hk'.
Qed.

Lemma rows_of_absent k (groups : list (Key * list (Row value))) :
  k ∉ groups.*1 -> rows_of k groups = [].
Proof.
  induction groups as [|[k0 g] rest IH]; [reflexivity|].
  cbn [fmap list_fmap fst rows_of]. rewrite not_elem_of_cons. intros [Hne Hrest].
  destruct (decide (k0 = k)); [congruence|]. apply IH, Hrest.
Qed.

(** Inserting a row adds it at the end of the rows of its key and leaves the
    rows of every other key as they are. *)
Lemma rows_of_insert_group k r (groups : list (Key * list (Row value))) k' :
  increasing groups ->
  rows_of k' (insert_group k r groups)
  = (rows_of k' groups ++ if decide (k = k') then [r] else [])%list.
Proof.
  unfold increasing.
  induction groups as [|[k0 g] rest IH]; intros Hinc.
  - cbn [insert_group rows_of]. destruct (decide (k = k')); reflexivity.
  - cbn [fmap list_fmap fst] in Hinc.
    apply StronglySorted_inv in Hinc. destruct Hinc as [Hrest Hk0].
    cbn [insert_group]. destruct (key_compare k k0) eqn:Ecmp.
    + apply key_compare_eq in Ecmp. subst k0. cbn [rows_of].
      destruct (decide (k = k')); [reflexivity|]. rewrite app_nil_r. reflexivity.
    + cbn [rows_of]. destruct (decide (k = k')) as [<-|Hne].
      * destruct (decide (k0 = k)) as [->|_].
        { rewrite key_compare_refl in Ecmp. discriminate. }
        rewrite rows_of_absent; [reflexivity|].
        intros Hin. rewrite Forall_forall in Hk0.
        pose proof (key_compare_trans _ _ _ Ecmp (Hk0 _ Hin)) as Hlt.
        rewrite key_compare_refl in Hlt. discriminate.
      * rewrite app_nil_r. reflexivity.
    + cbn [rows_of]. destruct (decide (k0 = k')) as [<-|Hne0].
      * destruct (decide (k = k0)) as [->|_].
        { rewrite key_compare_refl in Ecmp. discriminate. }
        rewrite app_nil_r. reflexivity.
      * apply IH, Hrest.
Qed.

Lemma insert_group_nonempty k r (groups : list (Key * list (Row value))) :
  key_missing k = false ->
  Forall (fun kg => kg.2 <> [] /\ key_missing kg.1 = false) groups ->
  Forall (fun kg => kg.2 <> [] /\ key_missing kg.1 = false) (insert_group k r groups).
Proof.
  intros Hk. induction groups as [|[k0 g] rest IH]; intros Hall.
  - repeat constructor; [discriminate|exact Hk].
  - apply Forall_cons in Hall. destruct Hall as [[Hg Hk0] Hrest].
    cbn [insert_group]. destruct (key_compare k k0).
    + constructor; [|exact Hrest]. cbn [fst snd]. split; [|exact Hk0].
      intros Happ. apply app_eq_nil in Happ. destruct Happ as [_ Happ].
      discriminate Happ.
    + constructor; [split; [discriminate|exact Hk]|].
      constructor; [split; assumption|exact Hrest].
    + constructor; [split; assumption|]. apply IH, Hrest.
Qed.

Lemma groupby_snoc (df : DataFrame) (r : Row value) :
  groupby (df ++ [r])
  = if key_missing (row_key r) then groupby df
    else insert_group (row_key r) r (groupby df).
Proof. unfold groupby. rewrite foldl_snoc. reflexivity. Qed.

(** What [groupby] returns on any frame, sorted or not. *)
Lemma groupby_invariant (df : DataFrame) :
  increasing (groupby df)
  /\ Forall (fun kg => kg.2 <> [] /\ key_missing kg.1 = false) (groupby df)
  /\ forall k, rows_of k (groupby df) = rows_with_key k df.
Proof.
  induction df as [|r df IH] using rev_ind.
  - split; [constructor|]. split; [constructor|]. reflexivity.
  - destruct IH as (Hinc & Hne & Hrows). rewrite groupby_snoc.
    assert (Hfilter : forall k, rows_with_key k (df ++ [r])
      = (rows_with_key k df
         ++ if decide (key_missing (row_key r) = false /\ row_key r = k)
            then [r] else [])%list).
    { intros k. unfold rows_with_key. rewrite filter_app. reflexivity. }
    destruct (key_missing (row_key r)) eqn:Hmiss.
    + split; [exact Hinc|]. split; [exact Hne|]. intros k.
      rewrite Hfilter, Hrows.
      destruct (decide _) as [[H _]|_]; [discriminate H|].
      rewrite app_nil_r. reflexivity.
    + split; [apply insert_group_increasing, Hinc|].
      split; [apply insert_group_nonempty; assumption|]. intros k.
      rewrite Hfilter, rows_of_insert_group, Hrows by exact Hinc. f_equal.
      destruct (decide (row_key r = k)) as [Heq|Hneq];
        destruct (decide _) as [[_ H]|H]; try reflexivity; try congruence.
      exfalso. apply H. split; [reflexivity|exact Heq].
Qed.






Lemma insert_group_Permutation k r (groups : list (Key * list (Row value))) :
  concat (insert_group k r groups).*2 ≡ₚ r :: concat groups.*2.
Proof.
  induction groups as [|[k0 g] rest IH]; [reflexivity|].
  cbn [insert_group]. destruct (key_compare k k0); cbn [fmap list_fmap snd concat].
  - rewrite <- app_assoc. symmetry. apply Permutation_middle.
  - reflexivity.
  - rewrite IH. symmetry. apply Permutation_middle.
Qed.

Lemma groupby_Permutation (df : DataFrame) :
  concat (groupby df).*2 ≡ₚ filter (fun r => key_missing (row_key r) = false) df.
Proof.
  induction df as [|r df IH] using rev_ind; [reflexivity|].
  rewrite groupby_snoc, filter_app.
  destruct (key_missing (row_key r)) eqn:Hmiss.
  - rewrite filter_cons_False by (rewrite Hmiss; discriminate).
    rewrite filter_nil, app_nil_r. exact IH.
  - rewrite filter_cons_True by exact Hmiss. rewrite filter_nil.
    rewrite insert_group_Permutation, IH. apply Permutation_cons_append.
Qed.

(** X10.  The loader neither loses nor repeats a row that has a document id
    and a sentence number, and drops every other row: the tokens of all
    sentences together are, up to order, the rows without a missing key.  No
    sentence is empty. *)
Theorem loaded_tokens (fs : FileSystem) (file_path : string) (df : DataFrame) :
  read_csv fs file_path = Ok df ->
  exists sentences : list Sentence,
    read_and_format_data fs file_path = Ok sentences
    /\ concat sentences
       ≡ₚ token_record <$> filter (fun r => key_missing (row_key r) = false) df
    /\ Forall (fun sentence => sentence <> []) sentences.
Proof.
  intros Hread. unfold read_and_format_data. rewrite Hread.
  eexists. split; [reflexivity|]. split.
  - rewrite <- groupby_Permutation.
    induction (groupby df) as [|[k g] groups IH]; [reflexivity|].
    cbn [map concat fmap list_fmap snd]. rewrite fmap_app, IH. reflexivity.
  - destruct (groupby_invariant df) as (_ & Hne & _).
    apply Forall_forall. intros sentence Hin.
    apply list_elem_of_In, in_map_iff in Hin. destruct Hin as ([k g] & <- & Hin).
    apply list_elem_of_In in Hin. rewrite Forall_forall in Hne.
    destruct (Hne _ Hin) as [Hg _]. cbn [snd] in *.
    destruct g; [congruence|discriminate].
Qed.

(** X10 on the file of three lines. *)
Lemma loaded_tokens_witness :
  exists sentences : list Sentence,
    read_and_format_data example_files "dev.tsv" = Ok sentences
    /\ concat sentences
       ≡ₚ token_record
            <$> filter (fun r => key_missing (row_key r) = false)
                  (parse_frame [example_line_1; example_line_2; example_line_3])
    /\ Forall (fun sentence => sentence <> []) sentences.
Proof.
  apply (loaded_tokens example_files "dev.tsv"). reflexivity.
Defined.

(** ** Further properties of the writer *)




(** X12.  A path at which there is no file makes the loader and the writer
    raise [FileNotFoundError]; the writer then writes nothing. *)
Theorem missing_file_raises (fs : FileSystem) (file_path output_file_path : string)
    (sentences_with_predictions : list (list string)) :
  fs !! file_path = None ->
  read_and_format_data fs file_path = Raise FileNotFoundError
  /\ write_predictions_to_file fs file_path sentences_with_predictions
       output_file_path
     = (Raise FileNotFoundError, fs).
Proof.
  intros Hnone.
  unfold read_and_format_data, write_predictions_to_file, read_csv.
  rewrite Hnone. split; reflexivity.
Qed.

(** X12 on a path that the example files do not have. *)
Lemma missing_file_raises_witness :
  read_and_format_data example_files "train.tsv" = Raise FileNotFoundError
  /\ write_predictions_to_file example_files "train.tsv" [["OS"]] "out.tsv"
     = (Raise FileNotFoundError, example_files).
Proof.
  apply (missing_file_raises example_files "train.tsv" "out.tsv" [["OS"]]).
  reflexivity.
Defined.

(** ** The order of the loaded tokens *)



(** * The training run and the ablation script

    [train_and_evaluate] and the script below it call python-crfsuite.  The
    library is not part of the program: its two entry points are parameters
    of the section below.  [crf_train] stands for a [Trainer] to which the
    pairs of [zip(X_train, y_train)] are appended in order, whose parameters
    are set and which is trained; it gives the model that is written to the
    file [crf.model], and fails when the library raises.  [crf_tag] is
    [tagger.tag] of a [Tagger] that has opened a model. *)

Abbreviation ItemSequence := (list (gmap string value)).

Inductive exception : Type :=
  | PandasError (e : error)
  | LookupError
  | ZeroDivisionError
  | CRFSuiteError.

Inductive outcome (A : Type) : Type :=
  | Done (a : A)
  | Raised (e : exception).

Arguments Done {A}.
Arguments Raised {A}.

(** A statement of the script: it reads or writes the state [S] and returns
    or raises. *)
Definition script (S A : Type) : Type := S -> outcome A * S.

#[global] Instance script_ret {S} : MRet (script S) := fun A a s => (Done a, s).

#[global] Instance script_bind {S} : MBind (script S) := fun A B k m s =>
  match m s with
  | (Done a, s') => k a s'
  | (Raised e, s') => (Raised e, s')
  end.

Definition of_result {A} (r : result A) : outcome A :=
  match r with
  | Ok a => Done a
  | Raise e => Raised (PandasError e)
  end.

Definition of_option {A} (e : exception) (o : option A) : outcome A :=
  match o with
  | Some a => Done a
  | None => Raised e
  end.

(** A computation that does not touch the state. *)
Definition pure {S A} (o : outcome A) : script S A := fun s => (o, s).

(** [[extract_features(sentence, exclude_feature=...) for sentence in sentences]];
    [LookupError] stands for the [IndexError] or [KeyError] of a call. *)
Definition features_of (sentences : list Sentence) (exclude_feature : option string)
  : outcome (list ItemSequence) :=
  of_option LookupError
    (mapM (fun sentence => extract_features sentence exclude_feature) sentences).

(** [for x in items: ...], collecting what each round computes. *)
Fixpoint for_each {S A B} (items : list A) (body : A -> script S B)
  : script S (list B) :=
  match items with
  | [] => mret []
  | x :: rest => b ← body x; bs ← for_each rest body; mret (b :: bs)
  end.

Definition train_file_path : string := "data/with_complete_features_training.tsv".
Definition dev_file_path : string := "data/with_complete_features_dev.tsv".
Definition model_file_path : string := "crf.model".

(** [f'predictions_without_{feature}.tsv'] *)
Definition output_file_path (feature : string) : string :=
  "predictions_without_" +:+ feature +:+ ".tsv".

Section PyCRFSuite.

Variable Model : Type.
Variable crf_train : list (ItemSequence * list value) -> option Model.
Variable crf_tag : Model -> ItemSequence -> list string.

(** The files on disk: the tables, by path, and the model file
    [crf.model], when there is one.  The model file is not a table: reading
    it with [read_csv] is not represented. *)
Record Disk : Type := mkDisk {
  tables : FileSystem;
  model_file : option Model
}.

(** Writing the model file replaces what was at its path. *)
Definition write_model (model : Model) (disk : Disk) : Disk :=
  mkDisk (delete model_file_path (tables disk)) (Some model).

Definition load (file_path : string) : script Disk (list Sentence) :=
  fun disk => (of_result (read_and_format_data (tables disk) file_path), disk).

(** Writing a table at the path of the model file replaces the model
    file. *)
Definition save (original_file_path : string)
    (sentences_with_predictions : list (list string))
    (output_file_path : string) : script Disk unit :=
  fun disk =>
    match write_predictions_to_file (tables disk) original_file_path
            sentences_with_predictions output_file_path with
    | (Ok _, fs') =>
        (Done (),
         mkDisk fs' (if bool_decide (output_file_path = model_file_path)
                     then None else model_file disk))
    | (Raise e, fs') => (Raised (PandasError e), mkDisk fs' (model_file disk))
    end.

(** The trainer: [append] in a loop, [set_params], [train('crf.model')].
    When the library raises, nothing is taken to have been written. *)
Definition train (data : list (ItemSequence * list value)) : script Disk unit :=
  fun disk =>
    match crf_train data with
    | Some model => (Done (), write_model model disk)
    | None => (Raised CRFSuiteError, disk)
    end.

(** [tagger.open('crf.model')] *)
Definition open_model : script Disk Model :=
  fun disk => (of_option CRFSuiteError (model_file disk), disk).

(** The parameter [exclude_feature] is not used in the body. *)
Definition train_and_evaluate (X_train : list ItemSequence)
    (y_train : list (list value)) (X_dev : list ItemSequence)
    (y_dev : list (list value)) (exclude_feature : option string)
  : script Disk (Q * list (list string)) :=
  _ ← train (zip X_train y_train);
  tagger ← open_model;
  let y_pred := map (crf_tag tagger) X_dev in
  let y_dev_flat := concat y_dev in
  let y_pred_flat := concat y_pred in
  '(precision, recall, f1_score) ←
    pure (of_option ZeroDivisionError
            (calculate_metrics y_dev_flat (VStr <$> y_pred_flat)));
  mret (f1_score, y_pred).

(** One round of the ablation loop; what it returns is the score it
    prints, before rounding. *)
Definition ablation_round (train_sentences dev_sentences : list Sentence)
    (y_train y_dev : list (list value)) (feature : string) : script Disk Q :=
  X_train ← pure (features_of train_sentences (Some feature));
  X_dev ← pure (features_of dev_sentences (Some feature));
  '(f1_score, feature_predictions) ←
    train_and_evaluate X_train y_train X_dev y_dev None;
  _ ← save dev_file_path feature_predictions (output_file_path feature);
  mret f1_score.

(** The script below the function definitions.  It returns the baseline
    score and the scores of the ablation rounds; printing is not
    represented. *)
Definition ablation_study : script Disk (Q * list Q) :=
  train_sentences ← load train_file_path;
  dev_sentences ← load dev_file_path;
  X_train ← pure (features_of train_sentences None);
  let y_train := map extract_labels train_sentences in
  X_dev ← pure (features_of dev_sentences None);
  let y_dev := map extract_labels dev_sentences in
  '(baseline_f1_score, baseline_predictions) ←
    train_and_evaluate X_train y_train X_dev y_dev None;
  scores ← for_each features_to_ablate
              (ablation_round train_sentences dev_sentences y_train y_dev);
  mret (baseline_f1_score, scores).

(** ** Properties of the training run *)

Hypothesis crf_tag_length :
  forall (tagger : Model) (xseq : ItemSequence),
    length (crf_tag tagger xseq) = length xseq.

Lemma features_of_Done (sentences : list Sentence) exclude_feature :
  exists X : list ItemSequence,
    features_of sentences exclude_feature = Done X
    /\ Forall2 (fun (xseq : ItemSequence) (sentence : Sentence) =>
                  length xseq = length sentence) X sentences.
Proof.
  unfold features_of.
  induction sentences as [|sentence sentences (X & HX & Hlen)].
  - exists []. split; [reflexivity|constructor].
  - destruct (extract_features_Some sentence exclude_feature)
      as (xseq & Hx & Hl & _).
    exists (xseq :: X). split; [|constructor; [exact Hl|exact Hlen]].
    cbn [mapM]. rewrite Hx. cbn [mbind option_bind].
    destruct (mapM _ sentences); [|discriminate HX].
    cbn in HX |- *. congruence.
Qed.

Lemma length_concat_Forall2 {A B} (l : list (list A)) (k : list (list B)) :
  Forall2 (fun a b => length a = length b) l k ->
  length (concat l) = length (concat k).
Proof.
  induction 1 as [|a b l k Hab _ IH]; [reflexivity|].
  cbn [concat]. rewrite !length_app. congruence.
Qed.

Lemma tagged_lengths (tagger : Model) (X : list ItemSequence) :
  Forall2 (fun (tags : list string) (xseq : ItemSequence) =>
             length tags = length xseq) (map (crf_tag tagger) X) X.
Proof.
  induction X as [|xseq X IH]; cbn [map]; constructor;
    [apply crf_tag_length|exact IH].
Qed.

Lemma length_tagged (tagger : Model) (X : list ItemSequence) :
  length (concat (map (crf_tag tagger) X)) = length (concat X).
Proof. apply length_concat_Forall2, tagged_lengths. Qed.

Lemma calculate_metrics_f1 (y_true y_pred : list value) :
  exists p r f,
    calculate_metrics y_true y_pred = Some (p, r, f)
    /\ (0 <= f <= 1)%Q
    /\ (length y_true = length y_pred -> (f == MetricSpec.f1 y_true y_pred)%Q).
Proof.
  destruct (calculate_metrics_closed y_true y_pred) as (f & Hcall & Hf & _).
  cbv zeta in Hcall, Hf.
  pose proof (count_pairs_nonneg
    (fun yt yp => is_in_scope yt && is_in_scope yp) y_true y_pred) as Htp.
  pose proof (count_pairs_nonneg
    (fun yt yp => negb (is_in_scope yt) && is_in_scope yp) y_true y_pred) as Hfp.
  pose proof (count_pairs_nonneg
    (fun yt yp => is_in_scope yt && negb (is_in_scope yp)) y_true y_pred) as Hfn.
  fold (true_positives y_true y_pred) in Htp.
  fold (false_positives y_true y_pred) in Hfp.
  fold (false_negatives y_true y_pred) in Hfn.
  eexists _, _, f. split; [exact Hcall|]. split.
  - rewrite Hf. apply f1_or_zero_bounds;
      (split; [apply ratio_or_zero_nonneg|apply ratio_or_zero_le_1]; lia).
  - intros Hlen. rewrite Hf.
    destruct (counts_meet_spec y_true y_pred Hlen) as (-> & -> & ->).
    reflexivity.
Qed.

(** A training run that the library completes: the model is written to
    [crf.model], opened again and used to tag. *)
Lemma train_and_evaluate_Done (X_train : list ItemSequence)
    (y_train : list (list value)) (X_dev : list ItemSequence)
    (y_dev : list (list value)) exclude_feature (tagger : Model) (disk : Disk) :
  crf_train (zip X_train y_train) = Some tagger ->
  exists f1_score,
    train_and_evaluate X_train y_train X_dev y_dev exclude_feature disk
    = (Done (f1_score, map (crf_tag tagger) X_dev), write_model tagger disk)
    /\ (0 <= f1_score <= 1)%Q
    /\ (length (concat y_dev) = length (concat X_dev) ->
        (f1_score == MetricSpec.f1 (concat y_dev)
                       (VStr <$> concat (map (crf_tag tagger) X_dev)))%Q)
    /\ (forall exclude_feature' disk',
          train_and_evaluate X_train y_train X_dev y_dev exclude_feature' disk'
          = (Done (f1_score, map (crf_tag tagger) X_dev), write_model tagger disk')).
Proof.
  intros Hfit.
  destruct (calculate_metrics_f1 (concat y_dev)
              (VStr <$> concat (map (crf_tag tagger) X_dev)))
    as (p & r & f & Hcall & Hbounds & Hspec).
  assert (Hrun : forall exclude_feature' disk',
            train_and_evaluate X_train y_train X_dev y_dev exclude_feature' disk'
            = (Done (f, map (crf_tag tagger) X_dev), write_model tagger disk')).
  { intros e d.
    unfold train_and_evaluate, mbind, script_bind, train, open_model, pure,
      mret, script_ret.
    rewrite Hfit. cbn [write_model model_file of_option]. cbv zeta.
    rewrite Hcall. reflexivity. }
  exists f. split; [apply Hrun|]. split; [exact Hbounds|]. split; [|exact Hrun].
  intros Hlen. apply Hspec. rewrite length_fmap, length_tagged. exact Hlen.
Qed.

(** X13.  Once the library has trained a model, [train_and_evaluate]
    returns normally, whatever [exclude_feature] is and whatever is on
    disk, and leaves the model in the file [crf.model]: the predictions are
    the tagger's output for each development sequence, one label per item,
    and the score lies between 0 and 1.  When the gold labels are as many as
    the items, the score is the F1 of the specification over all tokens of
    all sentences taken together. *)
Theorem train_and_evaluate_result (X_train : list ItemSequence)
    (y_train : list (list value)) (X_dev : list ItemSequence)
    (y_dev : list (list value)) (tagger : Model) :
  crf_train (zip X_train y_train) = Some tagger ->
  exists (f1_score : Q) (y_pred : list (list string)),
    (forall exclude_feature disk,
       train_and_evaluate X_train y_train X_dev y_dev exclude_feature disk
       = (Done (f1_score, y_pred), write_model tagger disk))
    /\ y_pred = map (crf_tag tagger) X_dev
    /\ Forall2 (fun (tags : list string) (xseq : ItemSequence) =>
                  length tags = length xseq) y_pred X_dev
    /\ (0 <= f1_score <= 1)%Q
    /\ (length (concat y_dev) = length (concat X_dev) ->
        (f1_score == MetricSpec.f1 (concat y_dev) (VStr <$> concat y_pred))%Q).
Proof.
  intros Hfit.
  destruct (train_and_evaluate_Done X_train y_train X_dev y_dev None tagger
              (mkDisk ∅ None) Hfit)
    as (f1_score & _ & Hbounds & Hspec & Hrun).
  exists f1_score, (map (crf_tag tagger) X_dev).
  split; [exact Hrun|]. split; [reflexivity|]. split; [apply tagged_lengths|].
  split; assumption.
Qed.

(** ** Properties of the script *)




Lemma length_loaded (fs : FileSystem) (file_path : string) (df : DataFrame)
    (sentences : list Sentence) :
  read_csv fs file_path = Ok df ->
  read_and_format_data fs file_path = Ok sentences ->
  length (concat sentences)
  = length (filter (fun r => key_missing (row_key r) = false) df).
Proof.
  intros Hread Hload. unfold read_and_format_data in Hload.
  rewrite Hread in Hload. injection Hload as <-.
  rewrite <- (Permutation_length (groupby_Permutation df)).
  induction (groupby df) as [|[k g] groups IH]; [reflexivity|].
  cbn [map concat fmap list_fmap snd].
  rewrite !length_app, length_map, IH. reflexivity.
Qed.


Lemma filter_present_fewer (df : DataFrame) :
  Exists (fun r => key_missing (row_key r) = true) df ->
  length (filter (fun r => key_missing (row_key r) = false) df) < length df.
Proof.
  induction 1 as [r df Hr|r df _ IH].
  - rewrite filter_cons_False by congruence.
    pose proof (length_filter (fun r => key_missing (row_key r) = false) df).
    simpl. lia.
  - destruct (key_missing (row_key r)) eqn:Hmiss.
    + rewrite filter_cons_False by congruence. simpl. lia.
    + rewrite filter_cons_True by exact Hmiss. simpl. lia.
Qed.


Lemma read_csv_delete (fs : FileSystem) (path deleted : string) :
  deleted <> path ->
  read_csv (delete deleted fs) path = read_csv fs path.
Proof. intros Hne. unfold read_csv. rewrite lookup_delete_ne by exact Hne. reflexivity. Qed.


(** A round whose predictions are not as many as the rows raises in the
    writer: the model file has been written, no table has. *)
Lemma ablation_round_Raised (train_sentences dev_sentences : list Sentence)
    (y_train y_dev : list (list value)) (df_dev : DataFrame) (feature : string)
    (disk : Disk) :
  read_csv (tables disk) dev_file_path = Ok df_dev ->
  df_dev <> [] ->
  length (concat dev_sentences) <> length df_dev ->
  (forall X_train,
     features_of train_sentences (Some feature) = Done X_train ->
     is_Some (crf_train (zip X_train y_train))) ->
  exists (X_train : list ItemSequence) (tagger : Model),
    features_of train_sentences (Some feature) = Done X_train
    /\ crf_train (zip X_train y_train) = Some tagger
    /\ ablation_round train_sentences dev_sentences y_train y_dev feature disk
       = (Raised (PandasError ValueError), write_model tagger disk).
Proof.
  intros Hread Hne Hlen Htrain.
  destruct (features_of_Done train_sentences (Some feature)) as (X_train & HXt & _).
  destruct (features_of_Done dev_sentences (Some feature)) as (X_dev & HXd & Hshape).
  destruct (Htrain X_train HXt) as [tagger Hfit].
  destruct (train_and_evaluate_Done X_train y_train X_dev y_dev None tagger disk Hfit)
    as (f1_score & Hcall & _).
  exists X_train, tagger. split; [exact HXt|]. split; [exact Hfit|].
  unfold ablation_round, mbind, script_bind, pure, mret, script_ret.
  rewrite HXt, HXd, Hcall. unfold save, write_predictions_to_file.
  cbn [write_model tables model_file].
  rewrite read_csv_delete by discriminate. rewrite Hread. cbv zeta.
  rewrite set_label_mismatch; [reflexivity|exact Hne|].
  rewrite length_tagged, (length_concat_Forall2 _ _ Hshape). exact Hlen.
Qed.




(** X15.  Let both data files be readable and let the development file
    have a row whose document id or sentence number is missing; let the
    library train a model on the full training set and on the one without
    [token], the first feature of [features_to_ablate].  Then the script
    stops in the first ablation round: the loader has dropped the row, so
    the predictions are fewer than the rows that the writer reads, and the
    writer raises [ValueError].  By then the model file [crf.model] has been
    written twice and holds the model trained without [token]; no table has
    been written. *)
Theorem ablation_study_missing_key (disk : Disk)
    (train_sentences : list Sentence) (df_dev : DataFrame) :
  read_and_format_data (tables disk) train_file_path = Ok train_sentences ->
  read_csv (tables disk) dev_file_path = Ok df_dev ->
  Exists (fun r => key_missing (row_key r) = true) df_dev ->
  (forall exclude_feature X_train,
     exclude_feature ∈ [None; Some "token"] ->
     features_of train_sentences exclude_feature = Done X_train ->
     is_Some (crf_train (zip X_train (map extract_labels train_sentences)))) ->
  exists (X_train : list ItemSequence) (tagger : Model),
    features_of train_sentences (Some "token") = Done X_train
    /\ crf_train (zip X_train (map extract_labels train_sentences)) = Some tagger
    /\ ablation_study disk
       = (Raised (PandasError ValueError), write_model tagger disk).
Proof.
  intros Htrain Hread Hmissing Hlib.
  destruct (read_and_format_data (tables disk) dev_file_path)
    as [dev_sentences|e] eqn:Hdev;
    [|unfold read_and_format_data in Hdev; rewrite Hread in Hdev; discriminate].
  assert (Hlen : length (concat dev_sentences) <> length df_dev).
  { rewrite (length_loaded _ _ _ _ Hread Hdev).
    pose proof (filter_present_fewer df_dev Hmissing). lia. }
  assert (Hne : df_dev <> []).
  { intros ->. inversion Hmissing. }
  destruct (features_of_Done train_sentences None) as (X_train & HXt & _).
  destruct (features_of_Done dev_sentences None) as (X_dev & HXd & _).
  destruct (Hlib None X_train) as [tagger Hfit]; [left|exact HXt|].
  destruct (train_and_evaluate_Done X_train (map extract_labels train_sentences)
              X_dev (map extract_labels dev_sentences) None tagger disk Hfit)
    as (baseline & Hcall & _).
  destruct (ablation_round_Raised train_sentences dev_sentences
              (map extract_labels train_sentences)
              (map extract_labels dev_sentences) df_dev "token"
              (write_model tagger disk))
    as (X_train' & tagger' & HXt' & Hfit' & Hround).
  { cbn [write_model tables]. rewrite read_csv_delete by discriminate. exact Hread. }
  { exact Hne. }
  { exact Hlen. }
  { intros X HX. apply (Hlib (Some "token") X); [right; left|exact HX]. }
  exists X_train', tagger'. split; [exact HXt'|]. split; [exact Hfit'|].
  unfold ablation_study, mbind, script_bind, load, pure, mret, script_ret.
  rewrite Htrain, Hdev. cbn [of_result]. rewrite HXt, HXd. cbv zeta.
  rewrite Hcall. unfold features_to_ablate. cbn [for_each].
  unfold mbind, script_bind. rewrite Hround.
  unfold write_model. cbn [tables]. rewrite delete_delete_eq. reflexivity.
Qed.

End PyCRFSuite.

Arguments mkDisk {Model}.
Arguments tables {Model}.
Arguments model_file {Model}.
Arguments write_model {Model}.

(** ** The script on example files

    A stand-in for the library: training always succeeds, and the tagger
    marks an item [NEG] when its feature [is_negation_cue] is true. *)

Definition example_train (data : list (ItemSequence * list value)) : option unit :=
  Some ().

Definition example_tag (tagger : unit) (xseq : ItemSequence) : list string :=
  map (fun item : gmap string value =>
         if bool_decide (item !! "is_negation_cue" = Some (VBool true))
         then "NEG" else "OS") xseq.

Definition example_items : ItemSequence :=
  [ {[ "is_negation_cue" := VBool false ]}; {[ "is_negation_cue" := VBool true ]} ].

(** A development file whose first line has no document id. *)
Definition example_line_0 : Row string :=
  mkRow "" "0" "0" "Oh" "oh" "UH" "INTJ" "_" "OS" "_" "-1" "False"
    "False" "False" "0" "False" "-1" "root" "0" "0" "-1".


Definition example_corpus_missing : Disk unit :=
  mkDisk
    {[ train_file_path := [example_line_1; example_line_2; example_line_3];
       dev_file_path := [example_line_0; example_line_1; example_line_2] ]}
    None.

(** The sentences of the example training file. *)
Definition example_train_sentences : list Sentence :=
  map (fun group : Key * list (Row value) => map token_record group.2)
    (groupby (parse_frame [example_line_1; example_line_2; example_line_3])).

Lemma example_tag_length (tagger : unit) (xseq : ItemSequence) :
  length (example_tag tagger xseq) = length xseq.
Proof. apply length_map. Defined.

(** X13 on one training sequence and one development sequence. *)
Lemma train_and_evaluate_result_witness :
  exists (f1_score : Q) (y_pred : list (list string)),
    (forall exclude_feature disk,
       train_and_evaluate unit example_train example_tag
         [example_items] [[VStr "OS"; VStr "NEG"]]
         [example_items] [[VStr "OS"; VStr "NEG"]] exclude_feature disk
       = (Done (f1_score, y_pred), write_model () disk))
    /\ y_pred = map (example_tag ()) [example_items]
    /\ Forall2 (fun (tags : list string) (xseq : ItemSequence) =>
                  length tags = length xseq) y_pred [example_items]
    /\ (0 <= f1_score <= 1)%Q
    /\ (length (concat [[VStr "OS"; VStr "NEG"]]) = length (concat [example_items]) ->
        (f1_score == MetricSpec.f1 (concat [[VStr "OS"; VStr "NEG"]])
                       (VStr <$> concat y_pred))%Q).
Proof.
  apply (train_and_evaluate_result unit example_train example_tag example_tag_length
           [example_items] [[VStr "OS"; VStr "NEG"]]
           [example_items] [[VStr "OS"; VStr "NEG"]] ()).
  reflexivity.
Defined.


(** X15 on a development file whose first line has no document id. *)
Lemma ablation_study_missing_key_witness :
  exists (X_train : list ItemSequence) (tagger : unit),
    features_of example_train_sentences (Some "token") = Done X_train
    /\ example_train (zip X_train (map extract_labels example_train_sentences))
       = Some tagger
    /\ ablation_study unit example_train example_tag example_corpus_missing
       = (Raised (PandasError ValueError), write_model tagger example_corpus_missing).
Proof.
  apply (ablation_study_missing_key unit example_train example_tag
           example_tag_length example_corpus_missing example_train_sentences
           (parse_frame [example_line_0; example_line_1; example_line_2])).
  - reflexivity.
  - reflexivity.
  - apply Exists_cons_hd. reflexivity.
  - intros exclude_feature X_train _ _. exists (). reflexivity.
Defined.
